(** * WooCommerce dashboard (App.py): the API client, the row mappings
      and the custom-endpoint form, embedded and verified.

    Conventions of the embedding.
    - A Python [str] is the Rocq [string] of its UTF-8 bytes.  The code only
      concatenates strings, strips them and compares them with ASCII
      literals, all of which act on the bytes.
    - A Python [int] is a [Z].
    - A decoded JSON document is a [JSON] tree; a [dict] with literal keys
      that the code returns to its caller is a [gmap string JSON], so that
      the presence and the absence of a key can both be stated.
    - Exceptions are values of [PyExc]; a computation that may raise, send
      HTTP requests and write to the page is a function of the monad [M].
    - What the code takes from outside is a parameter: the network
      ([transport]), the text of an exception ([str_exc]), the text of a
      float, a list or a dict ([str_other]) and the reading of an ISO date
      ([isoformat_date]).

    Modules: [Py] (values and built-ins), [Json] ([json.loads]), [Http]
    ([requests] and the page), [Client] (class WooCommerceAPI), [Views]
    (the rows of the tables), [ApiTesting] (the form), then [Spec] and
    [Props] (statements and proofs). *)

From Stdlib Require Import ZArith List Ascii String Bool Lia.
From stdpp Require Import base option gmap strings pretty.

Local Open Scope string_scope.
Local Open Scope Z_scope.

(** ** Python values *)

Module Py.

(** A float read by [json.loads], kept as the decimal literal it was read
    from: [FDec neg m e] is the float nearest to [(-1)^neg * m * 10^e]. *)
Inductive PyFloat : Type :=
| FDec (neg : bool) (m : N) (e : Z)
| FInf (neg : bool)
| FNaN.

(** What [json.loads] and [response.json()] return.  A [dict] keeps its
    insertion order; [obj_lookup] reads the first binding of a key. *)
#[warnings="-register-all"]
Inductive JSON : Type :=
| JNull
| JBool (b : bool)
| JInt (z : Z)
| JFloat (f : PyFloat)
| JStr (s : string)
| JArr (items : list JSON)
| JObj (members : list (string * JSON)).

(** The exceptions the code can meet, each an instance of [Exception],
    with what they were raised for. *)
Inductive PyExc : Type :=
| RequestException (detail : string)
| HTTPError (status : Z) (reason url : string)
| JSONDecodeError (doc : string)
| ValueError (literal : string)
| KeyError (key : string)
| TypeError (what : string)
| AttributeError (what : string).

(** The outcome of evaluating an expression: a value, or a raised exception. *)
Definition Res (A : Type) : Type := PyExc + A.

Definition res_bind {A B} (r : Res A) (k : A -> Res B) : Res B :=
  match r with
  | inl e => inl e
  | inr a => k a
  end.

(** *** Strings *)

Definition str_truthy (s : string) : bool :=
  match s with
  | EmptyString => false
  | String _ _ => true
  end.

(** [s.rstrip(c)] for a one-character set [c]. *)
Fixpoint rstrip (c : ascii) (s : string) : string :=
  match s with
  | EmptyString => EmptyString
  | String a r =>
      match rstrip c r with
      | EmptyString => if Ascii.eqb a c then EmptyString else String a EmptyString
      | r' => String a r'
      end
  end.

(** [s.replace(c, by)] for a one-character pattern [c]. *)
Fixpoint replace (c : ascii) (by_ : string) (s : string) : string :=
  match s with
  | EmptyString => EmptyString
  | String a r =>
      if Ascii.eqb a c then by_ ++ replace c by_ r else String a (replace c by_ r)
  end.

(** [sep.join(parts)]. *)
Fixpoint join (sep : string) (parts : list string) : string :=
  match parts with
  | [] => EmptyString
  | [p] => p
  | p :: rest => p ++ sep ++ join sep rest
  end.

Definition byte_in (c : ascii) (lo hi : N) : bool :=
  (lo <=? N_of_ascii c)%N && (N_of_ascii c <=? hi)%N.

(** The characters of [str.isspace] are U+0009-000D, U+001C-0020, U+0085,
    U+00A0, U+1680, U+2000-200A, U+2028, U+2029, U+202F, U+205F and U+3000.
    [wide_space_prefix s] is what follows the first character of [s] when
    that character is one of those above U+007F, [space_prefix s] when it
    is any of them. *)
Definition wide_space_prefix (s : string) : option string :=
  match s with
  | String a (String b r2) =>
      if byte_in a 194 194 && (byte_in b 133 133 || byte_in b 160 160)
      then Some r2
      else
        match r2 with
        | String c r3 =>
            if (byte_in a 225 225 && byte_in b 154 154 && byte_in c 128 128)
               || (byte_in a 226 226 && byte_in b 128 128
                   && (byte_in c 128 138 || byte_in c 168 169 || byte_in c 175 175))
               || (byte_in a 226 226 && byte_in b 129 129 && byte_in c 159 159)
               || (byte_in a 227 227 && byte_in b 128 128 && byte_in c 128 128)
            then Some r3
            else None
        | EmptyString => None
        end
  | _ => None
  end.

Definition space_prefix (s : string) : option string :=
  match s with
  | String a r =>
      if byte_in a 9 13 || byte_in a 28 32 then Some r else wide_space_prefix s
  | EmptyString => None
  end.

(** [s.lstrip()]: the white space at the head is at most [length s]
    characters long. *)
Fixpoint lstrip_n (n : nat) (s : string) : string :=
  match n with
  | O => s
  | S n' =>
      match space_prefix s with
      | Some r => lstrip_n n' r
      | None => s
      end
  end.

Definition lstrip (s : string) : string := lstrip_n (String.length s) s.

Definition isspace_all (s : string) : bool := negb (str_truthy (lstrip s)).

Fixpoint rstrip_space (s : string) : string :=
  match s with
  | EmptyString => EmptyString
  | String a r => if isspace_all s then EmptyString else String a (rstrip_space r)
  end.

(** [s.strip()]. *)
Definition strip (s : string) : string := rstrip_space (lstrip s).

(** *** [int(...)]

    [int] of a [str] skips the white space around the literal (of the
    ASCII characters only U+0009-000D and the blank), reads an optional
    sign and then decimal digits, where single underscores may separate
    digits.  Decimal digits beyond ASCII do not occur in the header values
    this is applied to (they are decoded as Latin-1), and the interpreter's
    bound on the length of a literal is left out. *)

Definition int_space_prefix (s : string) : option string :=
  match s with
  | String a r =>
      if byte_in a 9 13 || byte_in a 32 32 then Some r else wide_space_prefix s
  | EmptyString => None
  end.

Fixpoint int_lstrip_n (n : nat) (s : string) : string :=
  match n with
  | O => s
  | S n' =>
      match int_space_prefix s with
      | Some r => int_lstrip_n n' r
      | None => s
      end
  end.

Definition int_lstrip (s : string) : string := int_lstrip_n (String.length s) s.

Definition is_digit (c : ascii) : bool := byte_in c 48 57.

Definition digit_val (c : ascii) : Z := Z.of_N (N_of_ascii c) - 48.

(** The digits after the first one: returns the number read and what is
    left, which starts at the first character that cannot continue it. *)
Fixpoint scan_digits (acc : Z) (s : string) : Z * string :=
  match s with
  | String a r =>
      if is_digit a then scan_digits (10 * acc + digit_val a) r
      else if Ascii.eqb a "_" then
        match r with
        | String b r' =>
            if is_digit b then scan_digits (10 * acc + digit_val b) r' else (acc, s)
        | EmptyString => (acc, s)
        end
      else (acc, s)
  | EmptyString => (acc, s)
  end.

Definition int_of_str (s : string) : option Z :=
  let s1 := int_lstrip s in
  let '(neg, s2) :=
    match s1 with
    | String a r =>
        if Ascii.eqb a "-" then (true, r)
        else if Ascii.eqb a "+" then (false, r)
        else (false, s1)
    | EmptyString => (false, s1)
    end in
  match s2 with
  | String a r =>
      if is_digit a then
        let '(n, rest) := scan_digits (digit_val a) r in
        if str_truthy (int_lstrip rest) then None
        else Some (if neg : bool then - n else n)
      else None
  | EmptyString => None
  end.

(** [int(v)] where [v] is a [str] or already an [int]. *)
Definition int (v : string + Z) : Res Z :=
  match v with
  | inl s =>
      match int_of_str s with
      | Some n => inr n
      | None => inl (ValueError s)
      end
  | inr n => inr n
  end.

(** *** Truth values, subscripts, iteration *)

(** A float is zero when its literal rounds to zero, that is when it is at
    most half the least positive double, [2^-1075]. *)
Definition float_is_zero (f : PyFloat) : bool :=
  match f with
  | FDec _ m e =>
      if (m =? 0)%N then true
      else if 0 <=? e then false
      else Z.of_N m * 2 ^ 1075 <=? 10 ^ (- e)
  | FInf _ => false
  | FNaN => false
  end.

Definition truthy (v : JSON) : bool :=
  match v with
  | JNull => false
  | JBool b => b
  | JInt z => negb (z =? 0)
  | JFloat f => negb (float_is_zero f)
  | JStr s => str_truthy s
  | JArr items => match items with [] => false | _ => true end
  | JObj members => match members with [] => false | _ => true end
  end.

Fixpoint obj_lookup (members : list (string * JSON)) (key : string) : option JSON :=
  match members with
  | [] => None
  | (k, v) :: rest => if String.eqb k key then Some v else obj_lookup rest key
  end.

(** [d[key] = v] on a [dict]: an existing key keeps its place. *)
Fixpoint obj_set (members : list (string * JSON)) (key : string) (v : JSON)
  : list (string * JSON) :=
  match members with
  | [] => [(key, v)]
  | (k, w) :: rest =>
      if String.eqb k key then (k, v) :: rest else (k, w) :: obj_set rest key v
  end.

(** [v[key]] with a [str] key. *)
Definition subscript (v : JSON) (key : string) : Res JSON :=
  match v with
  | JObj members =>
      match obj_lookup members key with
      | Some x => inr x
      | None => inl (KeyError key)
      end
  | _ => inl (TypeError "subscript")
  end.

(** [v.get(key, default)]. *)
Definition get (v : JSON) (key : string) (default : JSON) : Res JSON :=
  match v with
  | JObj members =>
      match obj_lookup members key with
      | Some x => inr x
      | None => inr default
      end
  | _ => inl (AttributeError "get")
  end.

(** The characters of a string: a byte and the continuation bytes
    (128-191) that follow it. *)
Fixpoint chars (s : string) : list string :=
  match s with
  | EmptyString => []
  | String a r =>
      let cs := chars r in
      match r with
      | String b _ =>
          if byte_in b 128 191 then
            match cs with
            | c :: cs' => String a c :: cs'
            | [] => [String a EmptyString]
            end
          else String a EmptyString :: cs
      | EmptyString => [String a EmptyString]
      end
  end.

(** [for x in v]: the items of a list, the keys of a dict, the characters
    of a string. *)
Definition iter (v : JSON) : Res (list JSON) :=
  match v with
  | JArr items => inr items
  | JObj members => inr (map (fun kv => JStr (fst kv)) members)
  | JStr s => inr (map JStr (chars s))
  | _ => inl (TypeError "iter")
  end.

(** [sep.join(items)]: every item has to be a [str]. *)
Fixpoint strs (items : list JSON) : Res (list string) :=
  match items with
  | [] => inr []
  | JStr s :: rest => res_bind (strs rest) (fun l => inr (s :: l))
  | _ :: _ => inl (TypeError "join")
  end.

(** [v.replace(c, by)]: only a [str] has the method. *)
Definition str_replace (v : JSON) (c : ascii) (by_ : string) : Res string :=
  match v with
  | JStr s => inr (replace c by_ s)
  | _ => inl (AttributeError "replace")
  end.

End Py.

(** ** [json.loads]

    The decoder of the standard library: white space is the blank, the
    tab, the line feed and the carriage return; strings are read in strict
    mode (no control character inside); [NaN], [Infinity] and [-Infinity]
    are accepted; a number with a fraction or an exponent is a float, any
    other an int; a repeated key keeps its first place and its last
    value. *)

Module Json.
Import Py.

Definition is_ws (c : ascii) : bool :=
  Ascii.eqb c " " || Ascii.eqb c "009" || Ascii.eqb c "010" || Ascii.eqb c "013".

Fixpoint skip_ws (s : string) : string :=
  match s with
  | String c r => if is_ws c then skip_ws r else s
  | EmptyString => s
  end.

Fixpoint strip_prefix (p s : string) : option string :=
  match p, s with
  | EmptyString, _ => Some s
  | String a p', String b s' => if Ascii.eqb a b then strip_prefix p' s' else None
  | String _ _, EmptyString => None
  end.

Definition hex_val (c : ascii) : option N :=
  if byte_in c 48 57 then Some (N_of_ascii c - 48)%N
  else if byte_in c 97 102 then Some (N_of_ascii c - 87)%N
  else if byte_in c 65 70 then Some (N_of_ascii c - 55)%N
  else None.

Definition hex4 (a b c d : ascii) : option N :=
  match hex_val a, hex_val b, hex_val c, hex_val d with
  | Some x, Some y, Some z, Some w => Some (((x * 16 + y) * 16 + z) * 16 + w)%N
  | _, _, _, _ => None
  end.

Definition byte (n : N) : string := String (ascii_of_N n) EmptyString.

(** The UTF-8 bytes of a code point; a lone surrogate is written like any
    other three-byte code point. *)
Definition utf8 (cp : N) : string :=
  (if cp <? 128 then byte cp
   else if cp <? 2048 then byte (192 + cp / 64) ++ byte (128 + cp mod 64)
   else if cp <? 65536 then
     byte (224 + cp / 4096) ++ byte (128 + (cp / 64) mod 64) ++ byte (128 + cp mod 64)
   else
     byte (240 + cp / 262144) ++ byte (128 + (cp / 4096) mod 64)
       ++ byte (128 + (cp / 64) mod 64) ++ byte (128 + cp mod 64))%N.

Definition is_high (u : N) : bool := (55296 <=? u)%N && (u <=? 56319)%N.
Definition is_low (u : N) : bool := (56320 <=? u)%N && (u <=? 57343)%N.
Definition surrogate_pair (h l : N) : N :=
  (65536 + (h - 55296) * 1024 + (l - 56320))%N.

Definition simple_escape (e : ascii) : option ascii :=
  if Ascii.eqb e "034" then Some "034"%char
  else if Ascii.eqb e "\" then Some "\"%char
  else if Ascii.eqb e "/" then Some "/"%char
  else if Ascii.eqb e "b" then Some "008"%char
  else if Ascii.eqb e "f" then Some "012"%char
  else if Ascii.eqb e "n" then Some "010"%char
  else if Ascii.eqb e "r" then Some "013"%char
  else if Ascii.eqb e "t" then Some "009"%char
  else None.

Definition prepend (p : string) (r : option (string * string)) : option (string * string) :=
  match r with
  | Some (s, rest) => Some (p ++ s, rest)
  | None => None
  end.

(** The string that follows an opening quote: its content and what comes
    after the closing quote.  [hi] is a high surrogate read from a
    [\uXXXX] escape that waits for its low half. *)
Fixpoint scanstring (hi : option N) (s : string) : option (string * string) :=
  let flush := match hi with Some h => utf8 h | None => EmptyString end in
  match s with
  | EmptyString => None
  | String c r =>
      if Ascii.eqb c "034" then Some (flush, r)
      else if Ascii.eqb c "\" then
        match r with
        | String e r1 =>
            if Ascii.eqb e "u" then
              match r1 with
              | String h1 (String h2 (String h3 (String h4 r2))) =>
                  match hex4 h1 h2 h3 h4 with
                  | Some u =>
                      match hi with
                      | Some h =>
                          if is_low u then
                            prepend (utf8 (surrogate_pair h u)) (scanstring None r2)
                          else if is_high u then
                            prepend (utf8 h) (scanstring (Some u) r2)
                          else prepend (utf8 h ++ utf8 u) (scanstring None r2)
                      | None =>
                          if is_high u then scanstring (Some u) r2
                          else prepend (utf8 u) (scanstring None r2)
                      end
                  | None => None
                  end
              | _ => None
              end
            else
              match simple_escape e with
              | Some ch => prepend (flush ++ String ch EmptyString) (scanstring None r1)
              | None => None
              end
        | EmptyString => None
        end
      else if byte_in c 0 31 then None
      else prepend (flush ++ String c EmptyString) (scanstring None r)
  end.

(** A run of decimal digits: the number they add to [acc], how many there
    were, and what follows. *)
Fixpoint scan_num (acc : N) (count : nat) (s : string) : N * nat * string :=
  match s with
  | String a r =>
      if is_digit a then scan_num (10 * acc + (N_of_ascii a - 48))%N (S count) r
      else (acc, count, s)
  | EmptyString => (acc, count, s)
  end.

(** The optional fraction [.digits] after the integer part [m]. *)
Definition scan_frac (m : N) (s : string) : option (N * nat * string) :=
  match s with
  | String dot (String d r) =>
      if Ascii.eqb dot "." && is_digit d then Some (scan_num m 0 (String d r)) else None
  | _ => None
  end.

(** The optional exponent [e], [e+] or [e-] followed by digits. *)
Definition scan_exp (s : string) : option (Z * string) :=
  match s with
  | String e r =>
      if Ascii.eqb e "e" || Ascii.eqb e "E" then
        let '(neg, r1) :=
          match r with
          | String sg r' =>
              if Ascii.eqb sg "-" then (true, r')
              else if Ascii.eqb sg "+" then (false, r')
              else (false, r)
          | EmptyString => (false, r)
          end in
        match r1 with
        | String d _ =>
            if is_digit d then
              let '(x, _, rest) := scan_num 0 0 r1 in
              Some (if neg : bool then - Z.of_N x else Z.of_N x, rest)
            else None
        | EmptyString => None
        end
      else None
  | EmptyString => None
  end.

(** A number: an optional minus sign; then a single 0, or a digit from 1
    to 9 and any digits; then, optionally, a dot and at least one digit;
    then, optionally, an exponent. *)
Definition match_number (s : string) : option (JSON * string) :=
  let '(neg, s1) :=
    match s with
    | String a r => if Ascii.eqb a "-" then (true, r) else (false, s)
    | EmptyString => (false, s)
    end in
  match s1 with
  | String d r =>
      if is_digit d then
        let '(m, rest) :=
          if Ascii.eqb d "0" then (0%N, r)
          else let '(x, _, rest) := scan_num 0 0 s1 in (x, rest) in
        match scan_frac m rest, scan_exp rest with
        | Some (mf, k, rest1), _ =>
            match scan_exp rest1 with
            | Some (x, rest2) => Some (JFloat (FDec neg mf (x - Z.of_nat k)), rest2)
            | None => Some (JFloat (FDec neg mf (- Z.of_nat k)), rest1)
            end
        | None, Some (x, rest2) => Some (JFloat (FDec neg m x), rest2)
        | None, None => Some (JInt (if neg : bool then - Z.of_N m else Z.of_N m), rest)
        end
      else None
  | EmptyString => None
  end.

Definition literal (word : string) (v : JSON) (s : string) : option (JSON * string) :=
  match strip_prefix word s with
  | Some rest => Some (v, rest)
  | None => None
  end.

(** One value at the head of [s], then the items of an array after its
    first value, then the members of an object from a key on.  Every call
    uses one unit of [fuel]; [loads] gives enough of it. *)
Fixpoint scan_once (fuel : nat) (s : string) : option (JSON * string) :=
  match fuel with
  | O => None
  | S fuel' =>
      match s with
      | EmptyString => None
      | String c r =>
          if Ascii.eqb c "034" then
            match scanstring None r with
            | Some (str, rest) => Some (JStr str, rest)
            | None => None
            end
          else if Ascii.eqb c "{" then
            match skip_ws r with
            | String q r1 =>
                if Ascii.eqb q "}" then Some (JObj [], r1)
                else if Ascii.eqb q "034" then parse_members fuel' [] r1
                else None
            | EmptyString => None
            end
          else if Ascii.eqb c "[" then
            match skip_ws r with
            | String q r1 =>
                if Ascii.eqb q "]" then Some (JArr [], r1)
                else parse_items fuel' [] (skip_ws r)
            | EmptyString => None
            end
          else if Ascii.eqb c "n" then literal "null" JNull s
          else if Ascii.eqb c "t" then literal "true" (JBool true) s
          else if Ascii.eqb c "f" then literal "false" (JBool false) s
          else if Ascii.eqb c "N" then literal "NaN" (JFloat FNaN) s
          else if Ascii.eqb c "I" then literal "Infinity" (JFloat (FInf false)) s
          else
            match literal "-Infinity" (JFloat (FInf true)) s with
            | Some out => Some out
            | None => match_number s
            end
      end
  end
with parse_items (fuel : nat) (acc : list JSON) (s : string) : option (JSON * string) :=
  match fuel with
  | O => None
  | S fuel' =>
      match scan_once fuel' s with
      | Some (v, rest) =>
          match skip_ws rest with
          | String q r1 =>
              if Ascii.eqb q "]" then Some (JArr (acc ++ [v]), r1)
              else if Ascii.eqb q "," then parse_items fuel' (acc ++ [v]) (skip_ws r1)
              else None
          | EmptyString => None
          end
      | None => None
      end
  end
with parse_members (fuel : nat) (acc : list (string * JSON)) (s : string)
  : option (JSON * string) :=
  match fuel with
  | O => None
  | S fuel' =>
      match scanstring None s with
      | Some (key, rest) =>
          match skip_ws rest with
          | String colon r1 =>
              if Ascii.eqb colon ":" then
                match scan_once fuel' (skip_ws r1) with
                | Some (v, rest1) =>
                    match skip_ws rest1 with
                    | String q r2 =>
                        if Ascii.eqb q "}" then Some (JObj (obj_set acc key v), r2)
                        else if Ascii.eqb q "," then
                          match skip_ws r2 with
                          | String quote r3 =>
                              if Ascii.eqb quote "034"
                              then parse_members fuel' (obj_set acc key v) r3
                              else None
                          | EmptyString => None
                          end
                        else None
                    | EmptyString => None
                    end
                | None => None
                end
              else None
          | EmptyString => None
          end
      | None => None
      end
  end.

(** [json.loads(s)]: [None] stands for a raised [JSONDecodeError]. *)
Definition loads (s : string) : option JSON :=
  match scan_once (2 * String.length s + 2) (skip_ws s) with
  | Some (v, rest) =>
      match skip_ws rest with
      | EmptyString => Some v
      | String _ _ => None
      end
  | None => None
  end.

End Json.

(** ** The [requests] library and the page *)

Module Http.
Import Py.

Inductive Method : Type := GET | POST | PUT | DELETE.

(** A call [requests.get(url, auth=..., params=..., json=...)] (and
    [post], [put], [delete]): [params] is what the library writes into the
    query string, [json] what it sends as a JSON body; an argument that is
    not passed is [None]. *)
Record Request : Type := {
  req_method : Method;
  req_url : string;
  req_auth : string * string;
  req_params : option JSON;
  req_json : option JSON
}.

(** A [requests.Response].  [headers] is the store of the library's
    case-insensitive dictionary, keyed by the lower-case header name;
    [json] is what [response.json()] returns, [None] when it raises. *)
Record Response : Type := {
  status_code : Z;
  reason : string;
  url : string;
  headers : gmap string string;
  text : string;
  json : option JSON
}.

Definition lower_ascii (c : ascii) : ascii :=
  if byte_in c 65 90 then ascii_of_N (N_of_ascii c + 32) else c.

(** [key.lower()], for the ASCII header names the code asks for. *)
Fixpoint lower (s : string) : string :=
  match s with
  | EmptyString => EmptyString
  | String c r => String (lower_ascii c) (lower r)
  end.

(** [response.headers.get(key, default)]. *)
Definition headers_get {A} (r : Response) (key : string) (default : A) : string + A :=
  match headers r !! lower key with
  | Some v => inl v
  | None => inr default
  end.

(** [response.raise_for_status()]: an [HTTPError] for a 4xx or 5xx status,
    nothing for any other. *)
Definition raise_for_status (r : Response) : Res unit :=
  if (400 <=? status_code r) && (status_code r <? 600)
  then inl (HTTPError (status_code r) (reason r) (url r))
  else inr tt.

(** [response.json()]. *)
Definition response_json (r : Response) : Res JSON :=
  match json r with
  | Some v => inr v
  | None => inl (JSONDecodeError (text r))
  end.

(** What the page shows, in the order it is written. *)
Inductive Element : Type :=
| st_write (body : string)
| st_success (body : string)
| st_error (body : string)
| st_json (body : JSON)
| st_text (body : string).

(** The effects of a run: the HTTP calls made and the elements written. *)
Record World : Type := {
  sent : list Request;
  page : list Element
}.

Definition M (A : Type) : Type := World -> Res A * World.

Definition ret {A} (a : A) : M A := fun w => (inr a, w).

Definition bind {A B} (m : M A) (k : A -> M B) : M B :=
  fun w =>
    match m w with
    | (inl e, w') => (inl e, w')
    | (inr a, w') => k a w'
    end.

Definition lift {A} (r : Res A) : M A := fun w => (r, w).

(** [try: body / except Exception as e: handler e]. *)
Definition try_except {A} (body : M A) (handler : PyExc -> M A) : M A :=
  fun w =>
    match body w with
    | (inl e, w') => handler e w'
    | (inr a, w') => (inr a, w')
    end.

Definition show (el : Element) : M unit :=
  fun w => (inr tt, {| sent := sent w; page := page w ++ [el] |}).

Section Transport.

(** The network and the server behind it: the response to a request, or
    the exception the library raises instead. *)
Variable transport : Request -> Res Response.

Definition send (rq : Request) : M Response :=
  fun w => (transport rq, {| sent := sent w ++ [rq]; page := page w |}).

Definition requests_get (u : string) (a : string * string) (ps : option JSON) : M Response :=
  send {| req_method := GET; req_url := u; req_auth := a;
          req_params := ps; req_json := None |}.

Definition requests_delete (u : string) (a : string * string) (ps : option JSON) : M Response :=
  send {| req_method := DELETE; req_url := u; req_auth := a;
          req_params := ps; req_json := None |}.

Definition requests_post (u : string) (a : string * string) (body : option JSON) : M Response :=
  send {| req_method := POST; req_url := u; req_auth := a;
          req_params := None; req_json := body |}.

Definition requests_put (u : string) (a : string * string) (body : option JSON) : M Response :=
  send {| req_method := PUT; req_url := u; req_auth := a;
          req_params := None; req_json := body |}.

End Transport.

End Http.

Declare Scope py_scope.
Delimit Scope py_scope with py.
Notation "x <- m ;; k" := (Http.bind m (fun x => k))
  (at level 100, m at next level, right associativity) : py_scope.
Notation "m ;;; k" := (Http.bind m (fun _ => k))
  (at level 100, right associativity) : py_scope.

(** ** class WooCommerceAPI *)

Module Client.
Import Py Http.
Local Open Scope py_scope.

Record WooCommerceAPI : Type := {
  base_url : string;
  consumer_key : string;
  consumer_secret : string;
  auth : string * string
}.

(** [__init__]. *)
Definition init (base_url consumer_key consumer_secret : string) : WooCommerceAPI :=
  {| base_url := rstrip "/" base_url;
     consumer_key := consumer_key;
     consumer_secret := consumer_secret;
     auth := (consumer_key, consumer_secret) |}.

Section Operations.

Variable transport : Request -> Res Response.

(** [str(e)] for an exception [e]: the text the libraries give it. *)
Variable str_exc : PyExc -> string.

Definition get_products (self : WooCommerceAPI) (per_page page : Z) : M (gmap string JSON) :=
  try_except
    (let url := base_url self ++ "/wp-json/wc/v3/products" in
     let params := JObj [("per_page", JInt per_page); ("page", JInt page);
                         ("status", JStr "publish")] in
     response <- requests_get transport url (auth self) (Some params) ;;
     lift (raise_for_status response) ;;;
     data <- lift (response_json response) ;;
     total_pages <- lift (int (headers_get response "X-WP-TotalPages" 1)) ;;
     total_items <- lift (int (headers_get response "X-WP-Total" 0)) ;;
     ret {[ "success" := JBool true; "data" := data;
            "total_pages" := JInt total_pages; "total_items" := JInt total_items ]})
    (fun e => ret {[ "success" := JBool false; "error" := JStr (str_exc e) ]}).

Definition get_subscriptions (self : WooCommerceAPI) (per_page page : Z)
  : M (gmap string JSON) :=
  try_except
    (let url := base_url self ++ "/wp-json/wc/v3/subscriptions" in
     let params := JObj [("per_page", JInt per_page); ("page", JInt page)] in
     response <- requests_get transport url (auth self) (Some params) ;;
     lift (raise_for_status response) ;;;
     data <- lift (response_json response) ;;
     total_pages <- lift (int (headers_get response "X-WP-TotalPages" 1)) ;;
     total_items <- lift (int (headers_get response "X-WP-Total" 0)) ;;
     ret {[ "success" := JBool true; "data" := data;
            "total_pages" := JInt total_pages; "total_items" := JInt total_items ]})
    (fun e => ret {[ "success" := JBool false; "error" := JStr (str_exc e) ]}).

Definition test_connection (self : WooCommerceAPI) : M (gmap string JSON) :=
  try_except
    (let url := base_url self ++ "/wp-json/wc/v3/system_status" in
     response <- requests_get transport url (auth self) None ;;
     lift (raise_for_status response) ;;;
     ret {[ "success" := JBool true; "message" := JStr "Connection successful!" ]})
    (fun e => ret {[ "success" := JBool false; "error" := JStr (str_exc e) ]}).

End Operations.

End Client.

Declare Scope res_scope.
Delimit Scope res_scope with res.
Notation "x <- m ;; k" := (Py.res_bind m (fun x => k))
  (at level 100, m at next level, right associativity) : res_scope.

(** ** The tables of [display_products] and [display_subscriptions] *)

Module Views.
Import Py.
Local Open Scope res_scope.

Section Rows.

(** [str(v)] for the values whose text the interpreter computes from a
    float or from the items of a list or a dict. *)
Variable str_other : JSON -> string.

(** [datetime.fromisoformat(s).strftime('%Y-%m-%d')]: [None] when
    [fromisoformat] raises [ValueError]. *)
Variable isoformat_date : string -> option string.

(** The text an f-string gives a value. *)
Definition format (v : JSON) : string :=
  match v with
  | JStr s => s
  | JNull => "None"
  | JBool true => "True"
  | JBool false => "False"
  | JInt z => pretty z
  | _ => str_other v
  end.

Definition date_column (v : JSON) : Res string :=
  s <- str_replace v "Z" "+00:00" ;;
  match isoformat_date s with
  | Some d => inr d
  | None => inl (ValueError s)
  end.

Fixpoint names (cats : list JSON) : Res (list JSON) :=
  match cats with
  | [] => inr []
  | cat :: rest =>
      n <- subscript cat "name" ;;
      ns <- names rest ;;
      inr (n :: ns)
  end.

(** The dict built for one product [p]; the entries are evaluated in the
    order they are written, and the first exception ends the row. *)
Definition product_row (p : JSON) : Res (gmap string JSON) :=
  id <- subscript p "id" ;;
  name <- subscript p "name" ;;
  type <- subscript p "type" ;;
  status <- subscript p "status" ;;
  cond <- subscript p "price" ;;
  price <- (if truthy cond
            then (v <- subscript p "price" ;; inr ("$" ++ format v))
            else inr "Free") ;;
  stock <- get p "stock_quantity" (JStr "N/A") ;;
  categories <- subscript p "categories" ;;
  cats <- iter categories ;;
  ns <- names cats ;;
  parts <- strs ns ;;
  created <- subscript p "date_created" ;;
  date <- date_column created ;;
  inr {[ "ID" := id; "Name" := name; "Type" := type; "Status" := status;
         "Price" := JStr price; "Stock" := stock;
         "Categories" := JStr (join ", " parts); "Date Created" := JStr date ]}.

Definition subscription_row (s : JSON) : Res (gmap string JSON) :=
  id <- subscript s "id" ;;
  status <- subscript s "status" ;;
  total <- subscript s "total" ;;
  billing1 <- subscript s "billing" ;;
  first_name <- subscript billing1 "first_name" ;;
  billing2 <- subscript s "billing" ;;
  last_name <- subscript billing2 "last_name" ;;
  billing3 <- subscript s "billing" ;;
  email <- subscript billing3 "email" ;;
  created <- subscript s "date_created" ;;
  date <- date_column created ;;
  next_payment <- get s "next_payment_date" (JStr "N/A") ;;
  inr {[ "ID" := id; "Status" := status; "Total" := JStr ("$" ++ format total);
         "Customer" := JStr (format first_name ++ " " ++ format last_name);
         "Email" := email; "Start Date" := JStr date;
         "Next Payment" := next_payment ]}.

(** The list comprehension handed to [pd.DataFrame]. *)
Fixpoint rows (row : JSON -> Res (gmap string JSON)) (items : list JSON)
  : Res (list (gmap string JSON)) :=
  match items with
  | [] => inr []
  | x :: rest =>
      r <- row x ;;
      rs <- rows row rest ;;
      inr (r :: rs)
  end.

End Rows.

End Views.

(** ** The custom-endpoint form of [display_api_testing] *)

Module ApiTesting.
Import Py Http Client.
Local Open Scope py_scope.

Section Form.

Variable transport : Request -> Res Response.
Variable str_exc : PyExc -> string.

Definition json_loads (s : string) : Res JSON :=
  match Json.loads s with
  | Some v => inr v
  | None => inl (JSONDecodeError s)
  end.

(** What runs when the form is submitted with the texts [endpoint] and
    [params] and the selected [method]. *)
Definition send_request (wc_api : WooCommerceAPI) (endpoint : string) (method : Method)
    (params : string) : M unit :=
  if str_truthy endpoint then
    try_except
      (let url := base_url wc_api ++ "/wp-json/wc/v3/" ++ endpoint in
       request_params <-
         (if str_truthy (strip params) then lift (json_loads params)
          else ret (JObj [])) ;;
       response <-
         match method with
         | GET => requests_get transport url (auth wc_api) (Some request_params)
         | POST => requests_post transport url (auth wc_api) (Some request_params)
         | PUT => requests_put transport url (auth wc_api) (Some request_params)
         | DELETE => requests_delete transport url (auth wc_api) (Some request_params)
         end ;;
       show (st_write ("**Status Code:** " ++ pretty (status_code response))) ;;;
       if status_code response <? 400 then
         show (st_success "Request successful!") ;;;
         try_except
           (response_json <- lift (response_json response) ;;
            show (st_json response_json))
           (fun _ => show (st_text (text response)))
       else
         show (st_error "Request failed!") ;;;
         show (st_text (text response)))
      (fun e =>
         match e with
         | JSONDecodeError _ => show (st_error "Invalid JSON in parameters")
         | _ => show (st_error ("Error: " ++ str_exc e))
         end)
  else ret tt.

End Form.

End ApiTesting.

(** ** A run of the script

    One run of the script.  The values the widgets return are the inputs
    of the run; the screen lists the elements in the order the calls that
    show them are made.  Containers (columns, expanders, forms, spinners)
    and the input widgets themselves are not listed, and the calls of the
    Streamlit library are taken to succeed. *)

Module Streamlit.
Import Py Http Client.

(** A code point as text. *)
Definition cp (n : N) : string := Json.utf8 n.

Definition dquote : string := String "034" EmptyString.

Definition newline : string := String "010" EmptyString.

(** What [st.session_state] holds under a key. *)
Inductive SVal : Type :=
| SNone
| SBool (b : bool)
| SApi (api : WooCommerceAPI)
| SDict (d : gmap string JSON)
| SStr (s : string).

Definition sval_truthy (v : SVal) : bool :=
  match v with
  | SNone => false
  | SBool b => b
  | SApi _ => true
  | SDict d => negb (bool_decide (d = ∅))
  | SStr s => str_truthy s
  end.

(** An element on the screen: one of the five of the form
    ([st.write], [st.success], [st.error], [st.json], [st.text]), or one
    of the others the pages use. *)
Inductive Out : Type :=
| el (e : Element)
| st_write_value (v : JSON)
| st_markdown (body : string) (unsafe_allow_html : bool)
| st_warning (body : string)
| st_info (body : string)
| st_metric (label : string) (value : JSON)
| st_dataframe (rows : list (gmap string JSON))
| sidebar_title (body : string)
| sidebar_markdown (body : string)
| sidebar_success (body : string)
| sidebar_error (body : string).

Inductive Nav : Type := NavDashboard | NavProducts | NavSubscriptions | NavApiTesting.

(** The values of the widgets in one run, and the time of the clock. *)
Record Inputs : Type := {
  in_base_url : string;
  in_consumer_key : string;
  in_consumer_secret : string;
  in_use_live_keys : bool;
  in_submitted : bool;
  in_navigate : Nav;
  in_per_page : Z;
  in_page : Z;
  in_refresh_products : bool;
  in_selected_product : nat;
  in_sub_per_page : Z;
  in_sub_page : Z;
  in_refresh_subscriptions : bool;
  in_selected_subscription : nat;
  in_test_connection : bool;
  in_endpoint : string;
  in_method : Method;
  in_params : string;
  in_send_request : bool;
  in_now : string;
  in_view_products : bool;
  in_view_subscriptions : bool;
  in_test_api : bool
}.

(** How a piece of the script ends: with a value, with an exception, or
    with [st.rerun()], which stops the run. *)
Inductive Outcome (A : Type) : Type :=
| Done (a : A)
| Raised (e : PyExc)
| Rerun.
Arguments Done {A} a.
Arguments Raised {A} e.
Arguments Rerun {A}.

(** The state of a run: the session, the HTTP calls made, the screen. *)
Record Run : Type := {
  session : gmap string SVal;
  calls : list Request;
  screen : list Out
}.

Definition Script (A : Type) : Type := Run -> Outcome A * Run.

Definition areturn {A} (a : A) : Script A := fun s => (Done a, s).

Definition abind {A B} (m : Script A) (k : A -> Script B) : Script B :=
  fun s =>
    match m s with
    | (Done a, s') => k a s'
    | (Raised e, s') => (Raised e, s')
    | (Rerun, s') => (Rerun, s')
    end.

Definition araise {A} (e : PyExc) : Script A := fun s => (Raised e, s).

(** [st.rerun()]. *)
Definition st_rerun {A} : Script A := fun s => (Rerun, s).

Definition of_res {A} (r : Res A) : Script A :=
  match r with
  | inl e => araise e
  | inr a => areturn a
  end.

Definition emit (o : Out) : Script unit :=
  fun s => (Done tt, {| session := session s; calls := calls s;
                        screen := screen s ++ [o] |}).

(** A computation of the client or of the form, run inside the page: its
    calls follow those already made, its elements those already shown. *)
Definition http {A} (m : Http.M A) : Script A :=
  fun s =>
    match m {| sent := calls s; page := [] |} with
    | (r, w) =>
        (match r with inl e => Raised e | inr a => Done a end,
         {| session := session s; calls := sent w;
            screen := screen s ++ map el (page w) |})
    end.

(** [key in st.session_state], [st.session_state.key] and
    [st.session_state.key = v]. *)
Definition ss_has (key : string) : Script bool :=
  fun s => (Done (bool_decide (is_Some (session s !! key))), s).

Definition ss_get (key : string) : Script SVal :=
  fun s =>
    match session s !! key with
    | Some v => (Done v, s)
    | None => (Raised (AttributeError key), s)
    end.

Definition ss_set (key : string) (v : SVal) : Script unit :=
  fun s => (Done tt, {| session := <[key := v]> (session s); calls := calls s;
                        screen := screen s |}).

(** [try: body / except Exception as e: handler e]. *)
Definition atry {A} (body : Script A) (handler : PyExc -> Script A) : Script A :=
  fun s =>
    match body s with
    | (Raised e, s') => handler e s'
    | out => out
    end.

(** [st.write(v)]: a text is written as it is. *)
Definition write_value (v : JSON) : Out :=
  match v with
  | JStr s => el (st_write s)
  | _ => st_write_value v
  end.

(** [v.method(...)] for a method of the client. *)
Definition as_api (v : SVal) (method : string) : Script WooCommerceAPI :=
  match v with
  | SApi api => areturn api
  | _ => araise (AttributeError method)
  end.

(** [d[key]] on a returned dict. *)
Definition item (d : gmap string JSON) (key : string) : Script JSON :=
  match d !! key with
  | Some x => areturn x
  | None => araise (KeyError key)
  end.

(** [v[key]] on what the session holds. *)
Definition sval_item (v : SVal) (key : string) : Script JSON :=
  match v with
  | SDict d => item d key
  | _ => araise (TypeError "subscript")
  end.

(** [len(v)]. *)
Definition len (v : JSON) : Res Z :=
  match v with
  | JArr items => inr (Z.of_nat (length items))
  | JObj members => inr (Z.of_nat (length members))
  | JStr s => inr (Z.of_nat (length (chars s)))
  | _ => inl (TypeError "len")
  end.

(** What [st.selectbox] returns for the options and the index chosen: the
    first option when nothing else is chosen, [None] without options. *)
Definition selectbox (options : list JSON) (index : nat) : JSON :=
  match options !! index with
  | Some x => x
  | None =>
      match options with
      | x :: _ => x
      | [] => JNull
      end
  end.

End Streamlit.

Declare Scope app_scope.
Delimit Scope app_scope with app.
Notation "x <- m ;; k" := (Streamlit.abind m (fun x => k))
  (at level 100, m at next level, right associativity) : app_scope.
Notation "m ;;; k" := (Streamlit.abind m (fun _ => k))
  (at level 100, right associativity) : app_scope.

(** ** The pages: [init_session_state], [sidebar_config], the four
    [display_] functions and [main] *)

Module App.
Import Py Http Client Streamlit.
Local Open Scope app_scope.

(** The text [<h2 class="section-header">title</h2>]. *)
Definition section_header (title : string) : string :=
  "<h2 class=" ++ dquote ++ "section-header" ++ dquote ++ ">" ++ title ++ "</h2>".

Definition main_header : string :=
  "<h1 class=" ++ dquote ++ "main-header" ++ dquote ++ ">" ++ cp 128722
  ++ " WooCommerce Dashboard</h1>".

Definition footer : string :=
  newline ++ "        <div style='text-align: center; color: #666;'>"
  ++ newline ++ "            <p>WooCommerce Dashboard | Built with Streamlit</p>"
  ++ newline ++ "            <p><small>Ensure your API keys have proper read permissions for WooCommerce REST API</small></p>"
  ++ newline ++ "        </div>"
  ++ newline ++ "        ".

Definition not_configured : string :=
  "Please configure your API credentials in the sidebar first.".

(** [if key not in st.session_state: st.session_state.key = v]. *)
Definition init_key (key : string) (v : SVal) : Script unit :=
  has <- ss_has key ;;
  if has : bool then areturn tt else ss_set key v.

Definition init_session_state : Script unit :=
  init_key "api_configured" (SBool false) ;;;
  init_key "wc_api" SNone ;;;
  init_key "products_data" SNone ;;;
  init_key "subscriptions_data" SNone.

(** [st.session_state.key[k]]. *)
Definition ss_item (key k : string) : Script JSON :=
  v <- ss_get key ;;
  sval_item v k.

Section Pages.

Variable transport : Request -> Res Response.
Variable str_exc : PyExc -> string.
Variable str_other : JSON -> string.
Variable isoformat_date : string -> option string.

Definition fmt (v : JSON) : string := Views.format str_other v.

Definition sidebar_config (i : Inputs) : Script Nav :=
  emit (sidebar_title (cp 128272 ++ " API Configuration")) ;;;
  emit (st_markdown "### WooCommerce API Settings" false) ;;;
  (if in_submitted i then
     if str_truthy (in_base_url i) && str_truthy (in_consumer_key i)
        && str_truthy (in_consumer_secret i)
     then
       ss_set "wc_api"
         (SApi (init (in_base_url i) (in_consumer_key i) (in_consumer_secret i))) ;;;
       v <- ss_get "wc_api" ;;
       api <- as_api v "test_connection" ;;
       result <- http (test_connection transport str_exc api) ;;
       ok <- item result "success" ;;
       if truthy ok then
         ss_set "api_configured" (SBool true) ;;;
         emit (el (st_success (cp 9989 ++ " Connected successfully!"))) ;;;
         emit (sidebar_markdown
                 ("**Environment:** "
                  ++ (if in_use_live_keys i then cp 128308 ++ " Live"
                      else cp 128993 ++ " Test")))
       else
         ss_set "api_configured" (SBool false) ;;;
         err <- item result "error" ;;
         emit (el (st_error (cp 10060 ++ " Connection failed: " ++ fmt err)))
     else emit (el (st_error "Please fill in all required fields"))
   else areturn tt) ;;;
  configured <- ss_get "api_configured" ;;
  (if sval_truthy configured
   then emit (sidebar_success (cp 128994 ++ " Connected"))
   else emit (sidebar_error (cp 128308 ++ " Not Connected"))) ;;;
  emit (sidebar_markdown "---") ;;;
  areturn (in_navigate i).

(** The block under [if selected_product:]. *)
Definition product_details (selected_product : JSON) : Script unit :=
  emit (el (st_write "**Basic Information:**")) ;;;
  name <- of_res (subscript selected_product "name") ;;
  emit (el (st_write ("- **Name:** " ++ fmt name))) ;;;
  sku <- of_res (get selected_product "sku" (JStr "N/A")) ;;
  emit (el (st_write ("- **SKU:** " ++ fmt sku))) ;;;
  type <- of_res (subscript selected_product "type") ;;
  emit (el (st_write ("- **Type:** " ++ fmt type))) ;;;
  status <- of_res (subscript selected_product "status") ;;
  emit (el (st_write ("- **Status:** " ++ fmt status))) ;;;
  price <- of_res (subscript selected_product "price") ;;
  emit (el (st_write ("- **Price:** $" ++ fmt price))) ;;;
  emit (el (st_write "**Additional Details:**")) ;;;
  stock <- of_res (get selected_product "stock_quantity" (JStr "N/A")) ;;
  emit (el (st_write ("- **Stock Quantity:** " ++ fmt stock))) ;;;
  weight <- of_res (get selected_product "weight" (JStr "N/A")) ;;
  emit (el (st_write ("- **Weight:** " ++ fmt weight))) ;;;
  dimensions <- of_res (get selected_product "dimensions" (JObj [])) ;;
  length <- of_res (get dimensions "length" (JStr "N/A")) ;;
  emit (el (st_write ("- **Dimensions:** " ++ fmt length))) ;;;
  rating_count <- of_res (get selected_product "rating_count" (JInt 0)) ;;
  emit (el (st_write ("- **Reviews Count:** " ++ fmt rating_count))) ;;;
  description <- of_res (get selected_product "description" JNull) ;;
  if truthy description then
    emit (el (st_write "**Description:**")) ;;;
    description' <- of_res (subscript selected_product "description") ;;
    emit (write_value description')
  else areturn tt.

(** What [display_products] shows of [st.session_state.products_data],
    once it is loaded. *)
Definition show_products (i : Inputs) : Script unit :=
  ok <- ss_item "products_data" "success" ;;
  if truthy ok then
    products <- ss_item "products_data" "data" ;;
    total_items <- ss_item "products_data" "total_items" ;;
    total_pages <- ss_item "products_data" "total_pages" ;;
    emit (st_metric "Total Products" total_items) ;;;
    emit (st_metric "Current Page" (JStr (pretty (in_page i) ++ "/" ++ fmt total_pages))) ;;;
    showing <- of_res (len products) ;;
    emit (st_metric "Showing" (JInt showing)) ;;;
    if truthy products then
      items <- of_res (iter products) ;;
      products_df <- of_res (Views.rows (Views.product_row str_other isoformat_date) items) ;;
      emit (st_dataframe products_df) ;;;
      let selected_product := selectbox items (in_selected_product i) in
      if truthy selected_product then product_details selected_product
      else areturn tt
    else emit (st_info "No products found.")
  else
    error <- ss_item "products_data" "error" ;;
    emit (el (st_error ("Error loading products: " ++ fmt error))).

Definition display_products (i : Inputs) : Script unit :=
  emit (st_markdown (section_header (cp 128717 ++ cp 65039 ++ " Products")) true) ;;;
  configured <- ss_get "api_configured" ;;
  if negb (sval_truthy configured) then emit (st_warning not_configured)
  else
    (if in_refresh_products i then ss_set "products_data" SNone else areturn tt) ;;;
    cached <- ss_get "products_data" ;;
    match cached with
    | SNone =>
        v <- ss_get "wc_api" ;;
        api <- as_api v "get_products" ;;
        result <- http (get_products transport str_exc api (in_per_page i) (in_page i)) ;;
        ss_set "products_data" (SDict result)
    | _ => areturn tt
    end ;;;
    show_products i.

(** [for item in line_items: st.write(...)]. *)
Fixpoint line_items (items : list JSON) : Script unit :=
  match items with
  | [] => areturn tt
  | item :: rest =>
      name <- of_res (subscript item "name") ;;
      quantity <- of_res (subscript item "quantity") ;;
      total <- of_res (subscript item "total") ;;
      emit (el (st_write ("- " ++ fmt name ++ " (Qty: " ++ fmt quantity ++ ") - $"
                          ++ fmt total))) ;;;
      line_items rest
  end.

(** The block under [if selected_subscription:]. *)
Definition subscription_details (selected_subscription : JSON) : Script unit :=
  emit (el (st_write "**Subscription Info:**")) ;;;
  id <- of_res (subscript selected_subscription "id") ;;
  emit (el (st_write ("- **ID:** " ++ fmt id))) ;;;
  status <- of_res (subscript selected_subscription "status") ;;
  emit (el (st_write ("- **Status:** " ++ fmt status))) ;;;
  total <- of_res (subscript selected_subscription "total") ;;
  emit (el (st_write ("- **Total:** $" ++ fmt total))) ;;;
  currency <- of_res (subscript selected_subscription "currency") ;;
  emit (el (st_write ("- **Currency:** " ++ fmt currency))) ;;;
  billing <- of_res (subscript selected_subscription "billing") ;;
  emit (el (st_write "**Customer Info:**")) ;;;
  first_name <- of_res (subscript billing "first_name") ;;
  last_name <- of_res (subscript billing "last_name") ;;
  emit (el (st_write ("- **Name:** " ++ fmt first_name ++ " " ++ fmt last_name))) ;;;
  email <- of_res (subscript billing "email") ;;
  emit (el (st_write ("- **Email:** " ++ fmt email))) ;;;
  phone <- of_res (get billing "phone" (JStr "N/A")) ;;
  emit (el (st_write ("- **Phone:** " ++ fmt phone))) ;;;
  company <- of_res (get billing "company" (JStr "N/A")) ;;
  emit (el (st_write ("- **Company:** " ++ fmt company))) ;;;
  emit (el (st_write "**Items:**")) ;;;
  items_value <- of_res (get selected_subscription "line_items" (JArr [])) ;;
  items <- of_res (iter items_value) ;;
  line_items items.

(** What [display_subscriptions] shows of
    [st.session_state.subscriptions_data], once it is loaded. *)
Definition show_subscriptions (i : Inputs) : Script unit :=
  ok <- ss_item "subscriptions_data" "success" ;;
  if truthy ok then
    subscriptions <- ss_item "subscriptions_data" "data" ;;
    total_items <- ss_item "subscriptions_data" "total_items" ;;
    total_pages <- ss_item "subscriptions_data" "total_pages" ;;
    emit (st_metric "Total Subscriptions" total_items) ;;;
    emit (st_metric "Current Page"
            (JStr (pretty (in_sub_page i) ++ "/" ++ fmt total_pages))) ;;;
    showing <- of_res (len subscriptions) ;;
    emit (st_metric "Showing" (JInt showing)) ;;;
    if truthy subscriptions then
      items <- of_res (iter subscriptions) ;;
      subs_df <- of_res (Views.rows (Views.subscription_row str_other isoformat_date)
                           items) ;;
      emit (st_dataframe subs_df) ;;;
      let selected_subscription := selectbox items (in_selected_subscription i) in
      if truthy selected_subscription then subscription_details selected_subscription
      else areturn tt
    else emit (st_info "No subscriptions found.")
  else
    error <- ss_item "subscriptions_data" "error" ;;
    emit (el (st_error ("Error loading subscriptions: " ++ fmt error))).

Definition display_subscriptions (i : Inputs) : Script unit :=
  emit (st_markdown (section_header (cp 128260 ++ " Subscriptions")) true) ;;;
  configured <- ss_get "api_configured" ;;
  if negb (sval_truthy configured) then emit (st_warning not_configured)
  else
    (if in_refresh_subscriptions i then ss_set "subscriptions_data" SNone
     else areturn tt) ;;;
    cached <- ss_get "subscriptions_data" ;;
    match cached with
    | SNone =>
        v <- ss_get "wc_api" ;;
        api <- as_api v "get_subscriptions" ;;
        result <- http (get_subscriptions transport str_exc api
                          (in_sub_per_page i) (in_sub_page i)) ;;
        ss_set "subscriptions_data" (SDict result)
    | _ => areturn tt
    end ;;;
    show_subscriptions i.

Definition display_api_testing (i : Inputs) : Script unit :=
  emit (st_markdown (section_header (cp 129514 ++ " API Testing")) true) ;;;
  configured <- ss_get "api_configured" ;;
  if negb (sval_truthy configured) then emit (st_warning not_configured)
  else
    (if in_test_connection i then
       v <- ss_get "wc_api" ;;
       api <- as_api v "test_connection" ;;
       result <- http (test_connection transport str_exc api) ;;
       ok <- item result "success" ;;
       if truthy ok then
         message <- item result "message" ;;
         emit (el (st_success (fmt message)))
       else
         error <- item result "error" ;;
         emit (el (st_error ("Connection failed: " ++ fmt error)))
     else areturn tt) ;;;
    emit (st_info "Test your WooCommerce API connection") ;;;
    emit (st_markdown ("### " ++ cp 128736 ++ cp 65039 ++ " Custom Endpoint Testing")
            false) ;;;
    if in_send_request i then
      if str_truthy (in_endpoint i) then
        atry
          (v <- ss_get "wc_api" ;;
           api <- as_api v "base_url" ;;
           http (ApiTesting.send_request transport str_exc api (in_endpoint i)
                   (in_method i) (in_params i)))
          (fun e =>
             match e with
             | JSONDecodeError _ => emit (el (st_error "Invalid JSON in parameters"))
             | _ => emit (el (st_error ("Error: " ++ str_exc e)))
             end)
      else areturn tt
    else areturn tt.

Definition display_dashboard (i : Inputs) : Script unit :=
  emit (st_markdown (section_header (cp 128202 ++ " Dashboard Overview")) true) ;;;
  configured <- ss_get "api_configured" ;;
  if negb (sval_truthy configured) then
    emit (st_warning
            "Please configure your API credentials in the sidebar to view dashboard data.")
  else
    v <- ss_get "wc_api" ;;
    api <- as_api v "get_products" ;;
    products_result <- http (get_products transport str_exc api 1 1) ;;
    ok <- item products_result "success" ;;
    total_products <-
      (if truthy ok then item products_result "total_items"
       else areturn (JStr "Error")) ;;
    v' <- ss_get "wc_api" ;;
    api' <- as_api v' "get_subscriptions" ;;
    subs_result <- http (get_subscriptions transport str_exc api' 1 1) ;;
    ok' <- item subs_result "success" ;;
    total_subscriptions <-
      (if truthy ok' then item subs_result "total_items"
       else areturn (JStr "Error")) ;;
    emit (st_metric "Total Products" total_products) ;;;
    emit (st_metric "Total Subscriptions" total_subscriptions) ;;;
    configured' <- ss_get "api_configured" ;;
    emit (st_metric "API Status"
            (JStr (if sval_truthy configured' then cp 128994 ++ " Connected"
                   else cp 128308 ++ " Disconnected"))) ;;;
    emit (st_metric "Last Updated" (JStr (in_now i))) ;;;
    emit (st_markdown ("### " ++ cp 128640 ++ " Quick Actions") false) ;;;
    (if in_view_products i then ss_set "page" (SStr "Products") ;;; st_rerun
     else areturn tt) ;;;
    (if in_view_subscriptions i then ss_set "page" (SStr "Subscriptions") ;;; st_rerun
     else areturn tt) ;;;
    (if in_test_api i then ss_set "page" (SStr "API Testing") ;;; st_rerun
     else areturn tt).

Definition main (i : Inputs) : Script unit :=
  init_session_state ;;;
  emit (st_markdown main_header true) ;;;
  page <- sidebar_config i ;;
  match page with
  | NavDashboard => display_dashboard i
  | NavProducts => display_products i
  | NavSubscriptions => display_subscriptions i
  | NavApiTesting => display_api_testing i
  end ;;;
  emit (st_markdown "---" false) ;;;
  emit (st_markdown footer true).

End Pages.

End App.

(** * Properties

    ** The statements' vocabulary: the requests the operations make, the
    shapes of what they return, and concrete values to run them on *)

Module Spec.
Import Py Http Client.

(** The dict of the [except] branch of the three operations. *)
Definition failure (str_exc : PyExc -> string) (e : PyExc) : gmap string JSON :=
  {[ "success" := JBool false; "error" := JStr (str_exc e) ]}.

Fixpoint slashes (n : nat) : string :=
  match n with
  | O => EmptyString
  | S n' => String "/" (slashes n')
  end.

Definition products_request (api : WooCommerceAPI) (per_page page : Z) : Request :=
  {| req_method := GET;
     req_url := base_url api ++ "/wp-json/wc/v3/products";
     req_auth := auth api;
     req_params := Some (JObj [("per_page", JInt per_page); ("page", JInt page);
                               ("status", JStr "publish")]);
     req_json := None |}.

Definition subscriptions_request (api : WooCommerceAPI) (per_page page : Z) : Request :=
  {| req_method := GET;
     req_url := base_url api ++ "/wp-json/wc/v3/subscriptions";
     req_auth := auth api;
     req_params := Some (JObj [("per_page", JInt per_page); ("page", JInt page)]);
     req_json := None |}.

Definition status_request (api : WooCommerceAPI) : Request :=
  {| req_method := GET;
     req_url := base_url api ++ "/wp-json/wc/v3/system_status";
     req_auth := auth api;
     req_params := None;
     req_json := None |}.

(** The world after one more call [rq]. *)
Definition after (w : World) (rq : Request) : World :=
  {| sent := sent w ++ [rq]; page := page w |}.

(** What a listing call makes of the outcome of its request. *)
Definition listing (str_exc : PyExc -> string) (out : Res Response) : gmap string JSON :=
  match out with
  | inl e => failure str_exc e
  | inr r =>
      match raise_for_status r with
      | inl e => failure str_exc e
      | inr _ =>
          match response_json r with
          | inl e => failure str_exc e
          | inr data =>
              match int (headers_get r "X-WP-TotalPages" 1) with
              | inl e => failure str_exc e
              | inr tp =>
                  match int (headers_get r "X-WP-Total" 0) with
                  | inl e => failure str_exc e
                  | inr ti =>
                      {[ "success" := JBool true; "data" := data;
                         "total_pages" := JInt tp; "total_items" := JInt ti ]}
                  end
              end
          end
      end
  end.

(** The three shapes of a returned dict.  Equality of maps fixes the keys
    as well as the values. *)
Definition success_shape (d : gmap string JSON) : Prop :=
  exists data tp ti,
    d = {[ "success" := JBool true; "data" := data;
           "total_pages" := JInt tp; "total_items" := JInt ti ]}.

Definition failure_shape (d : gmap string JSON) : Prop :=
  exists msg, d = {[ "success" := JBool false; "error" := JStr msg ]}.

Definition connected_shape (d : gmap string JSON) : Prop :=
  d = {[ "success" := JBool true; "message" := JStr "Connection successful!" ]}.

(** The two listing operations, to state what they share. *)
Inductive Listing : Type := Products | Subscriptions.

Definition listing_request (which : Listing) : WooCommerceAPI -> Z -> Z -> Request :=
  match which with
  | Products => products_request
  | Subscriptions => subscriptions_request
  end.

Definition call (transport : Request -> Res Response) (str_exc : PyExc -> string)
    (which : Listing) : WooCommerceAPI -> Z -> Z -> M (gmap string JSON) :=
  match which with
  | Products => get_products transport str_exc
  | Subscriptions => get_subscriptions transport str_exc
  end.


(** An outcome the client has to expect: the transport raised [e], or the
    server answered with a 4xx or 5xx status, for which [raise_for_status]
    raises the [HTTPError] [e]. *)
Definition expected_failure (out : Res Response) (e : PyExc) : Prop :=
  out = inl e
  \/ exists r, out = inr r /\ 400 <= status_code r < 600
               /\ e = HTTPError (status_code r) (reason r) (url r).

Definition w0 : World := {| sent := []; page := [] |}.

Definition shop : WooCommerceAPI := init "https://shop.example/" "ck_1" "cs_1".

(** A rendering of exceptions for the concrete runs. *)
Definition sample_str_exc (e : PyExc) : string :=
  match e with
  | RequestException detail => detail
  | HTTPError status reason url => pretty status ++ " Error: " ++ reason ++ " for url: " ++ url
  | JSONDecodeError _ => "Expecting value"
  | ValueError literal => "invalid literal for int() with base 10: " ++ literal
  | KeyError key => key
  | TypeError what => what
  | AttributeError what => what
  end.

Definition response (status : Z) (why : string) (hs : list (string * string))
    (body : string) (decoded : option JSON) : Response :=
  {| status_code := status; reason := why;
     url := "https://shop.example/wp-json/wc/v3/products";
     headers := list_to_map hs; text := body; json := decoded |}.

Definition server (r : Response) : Request -> Res Response := fun _ => inr r.

Definition paged_response : Response :=
  response 200 "OK" [("x-wp-totalpages", "5"); ("x-wp-total", "42")] "[]" (Some (JArr [])).



Definition not_found_response : Response :=
  response 404 "Not Found" [] "{}" (Some (JObj [])).

Definition multiple_choices_response : Response :=
  response 300 "Multiple Choices" [] "[]" (Some (JArr [])).

(** [cats] are objects whose names are the strings [ns], in order. *)
Definition named (cats : list JSON) (ns : list string) : Prop :=
  Forall2 (fun c n => exists m, c = JObj m /\ obj_lookup m "name" = Some (JStr n)) cats ns.

(** The first byte of a white-space character. *)
Definition space_lead (a : ascii) : bool :=
  byte_in a 9 13 || byte_in a 28 32 || byte_in a 194 194 || byte_in a 225 227.

(** GET and DELETE pass the parameters as [params], POST and PUT as [json]. *)
Definition in_query (method : Method) : bool :=
  match method with
  | GET | DELETE => true
  | POST | PUT => false
  end.

(** The call the form makes for the decoded parameters [v]. *)
Definition form_request (api : WooCommerceAPI) (endpoint : string) (method : Method)
    (v : JSON) : Request :=
  {| req_method := method;
     req_url := base_url api ++ "/wp-json/wc/v3/" ++ endpoint;
     req_auth := auth api;
     req_params := if in_query method then Some v else None;
     req_json := if in_query method then None else Some v |}.

Definition dq : string := String "034" EmptyString.

(** The text [{"per_page":10}]. *)
Definition per_page_text : string := "{" ++ dq ++ "per_page" ++ dq ++ ":10}".


(** A rendering of the other values and a reading of dates for the
    concrete rows: the date is the first ten characters of a text that has
    at least ten. *)
Definition sample_str_other (v : JSON) : string := "...".

Definition sample_isoformat_date (s : string) : option string :=
  if (10 <=? String.length s)%nat then Some (substring 0 10 s) else None.

Definition sample_product : JSON :=
  JObj [("id", JInt 1); ("name", JStr "Mug"); ("type", JStr "simple");
        ("status", JStr "publish"); ("price", JStr "9.99");
        ("categories", JArr [JObj [("id", JInt 7); ("name", JStr "A")]]);
        ("date_created", JStr "2024-01-05T10:11:12")].

Definition sample_subscription : JSON :=
  JObj [("id", JInt 3); ("status", JStr "active"); ("total", JStr "19.00");
        ("billing", JObj [("first_name", JStr "Ada"); ("last_name", JStr "Lovelace");
                          ("email", JStr "ada@example.org")]);
        ("date_created", JStr "2024-02-01T08:00:00Z")].

End Spec.

(** ** The vocabulary of the statements about the pages *)

Module AppSpec.
Import Py Http Client Streamlit App Spec.

(** The run of a new browser session starts here. *)
Definition fresh : Run := {| session := ∅; calls := []; screen := [] |}.

(** What [init_session_state] gives the keys that are not there yet. *)
Definition defaults : gmap string SVal :=
  {[ "api_configured" := SBool false; "wc_api" := SNone;
     "products_data" := SNone; "subscriptions_data" := SNone ]}.

(** What [test_connection] makes of the outcome of its request. *)
Definition connection (str_exc : PyExc -> string) (out : Res Response) : gmap string JSON :=
  match out with
  | inl e => failure str_exc e
  | inr r =>
      match raise_for_status r with
      | inl e => failure str_exc e
      | inr _ => {[ "success" := JBool true; "message" := JStr "Connection successful!" ]}
      end
  end.

(** The server answered, and not with a 4xx or 5xx status. *)
Definition answered (out : Res Response) : bool :=
  match out with
  | inl _ => false
  | inr r => negb ((400 <=? status_code r) && (status_code r <? 600))
  end.

(** The text of the failure of a request: that of the exception the
    transport raised, or of the [HTTPError] of the status. *)
Definition failure_text (str_exc : PyExc -> string) (out : Res Response) : string :=
  match out with
  | inl e => str_exc e
  | inr r => str_exc (HTTPError (status_code r) (reason r) (url r))
  end.

(** The first lines of the sidebar and its last ones. *)
Definition sidebar_top : list Out :=
  [ sidebar_title (cp 128272 ++ " API Configuration");
    st_markdown "### WooCommerce API Settings" false ].

Definition sidebar_status (connected : bool) : list Out :=
  [ if connected then sidebar_success (cp 128994 ++ " Connected")
    else sidebar_error (cp 128308 ++ " Not Connected");
    sidebar_markdown "---" ].

(** A piece of the script that only writes on the screen: it leaves the
    session and the calls as they are, however it ends. *)
Definition quiet {A} (m : Script A) : Prop :=
  forall s, session (snd (m s)) = session s /\ calls (snd (m s)) = calls s.

(** The header of the Products page and that of the Subscriptions page. *)
Definition products_header : Out :=
  st_markdown (section_header (cp 128717 ++ cp 65039 ++ " Products")) true.

Definition subscriptions_header : Out :=
  st_markdown (section_header (cp 128260 ++ " Subscriptions")) true.

(** The run [s] with one more element on the screen. *)
Definition shown (s : Run) (o : Out) : Run :=
  {| session := session s; calls := calls s; screen := screen s ++ [o] |}.

(** The run [s] after a call [rq] whose result [d] is stored under [key]. *)
Definition loaded (s : Run) (key : string) (rq : Request) (d : gmap string JSON) : Run :=
  {| session := <[ key := SDict d ]> (session s); calls := calls s ++ [rq];
     screen := screen s |}.

Definition api_testing_header : Out :=
  st_markdown (section_header (cp 129514 ++ " API Testing")) true.

Definition dashboard_header : Out :=
  st_markdown (section_header (cp 128202 ++ " Dashboard Overview")) true.

(** The three metrics above the table of products. *)
Definition products_metrics (str_other : JSON -> string) (i : Inputs) (data : JSON)
    (total_pages total_items : JSON) (showing : nat) : list Out :=
  [ st_metric "Total Products" total_items;
    st_metric "Current Page"
      (JStr (pretty (in_page i) ++ "/" ++ Views.format str_other total_pages));
    st_metric "Showing" (JInt (Z.of_nat showing)) ].

(** The success dict of a listing call. *)
Definition success (data total_pages total_items : JSON) : gmap string JSON :=
  {[ "success" := JBool true; "data" := data;
     "total_pages" := total_pages; "total_items" := total_items ]}.

(** What the dashboard shows for a listing result: the total of a
    success, [Error] for a failure. *)
Definition total (d : gmap string JSON) : JSON :=
  default (JStr "Error") (d !! "total_items").

(** The screen of the dashboard, up to its buttons. *)
Definition dashboard_metrics (i : Inputs) (products subscriptions : gmap string JSON)
    (connected : bool) : list Out :=
  [ dashboard_header;
    st_metric "Total Products" (total products);
    st_metric "Total Subscriptions" (total subscriptions);
    st_metric "API Status"
      (JStr (if connected then cp 128994 ++ " Connected" else cp 128308 ++ " Disconnected"));
    st_metric "Last Updated" (JStr (in_now i));
    st_markdown ("### " ++ cp 128640 ++ " Quick Actions") false ].

(** The quick action pressed, if any: the first of the three buttons
    that is down. *)
Definition quick_action (i : Inputs) : option string :=
  if in_view_products i then Some "Products"
  else if in_view_subscriptions i then Some "Subscriptions"
  else if in_test_api i then Some "API Testing"
  else None.




(** What a page shows while there is no connection. *)
Definition locked (page : Nav) : list Out :=
  match page with
  | NavDashboard =>
      [ dashboard_header;
        st_warning
          "Please configure your API credentials in the sidebar to view dashboard data." ]
  | NavProducts => [products_header; st_warning not_configured]
  | NavSubscriptions => [subscriptions_header; st_warning not_configured]
  | NavApiTesting => [api_testing_header; st_warning not_configured]
  end.

(** The top and the bottom of every page. *)
Definition page_top : list Out := [st_markdown main_header true].

Definition page_bottom : list Out := [st_markdown "---" false; st_markdown footer true].




Definition is_none (v : SVal) : bool :=
  match v with
  | SNone => true
  | _ => false
  end.


(** The page [main] displays for what the sidebar returned. *)
Definition display (transport : Request -> Res Response) (str_exc : PyExc -> string)
    (str_other : JSON -> string) (isoformat_date : string -> option string)
    (i : Inputs) (page : Nav) : Script unit :=
  match page with
  | NavDashboard => display_dashboard transport str_exc i
  | NavProducts => display_products transport str_exc str_other isoformat_date i
  | NavSubscriptions => display_subscriptions transport str_exc str_other isoformat_date i
  | NavApiTesting => display_api_testing transport str_exc str_other i
  end.



(** A run without what the session holds under [page]. *)
Definition hide (s : Run) : Run :=
  {| session := delete "page" (session s); calls := calls s; screen := screen s |}.

(** A piece of the script that does not read what the session holds
    under [page]: from two runs that differ there at most it ends the
    same way, in two runs that differ there at most. *)
Definition blind {A} (m : Script A) : Prop :=
  forall s s', hide s = hide s' ->
    fst (m s) = fst (m s') /\ hide (snd (m s)) = hide (snd (m s')).

(** The fields the table of products reads with [p[...]], and those the
    table of subscriptions reads from a subscription and from its
    billing address. *)
Definition product_fields : list string :=
  ["id"; "name"; "type"; "status"; "price"; "categories"; "date_created"].

Definition subscription_fields : list string :=
  ["id"; "status"; "total"; "billing"; "date_created"].

Definition billing_fields : list string := ["first_name"; "last_name"; "email"].

(** ** Concrete runs

    A visit of a page with the form filled in for the sample shop, the
    form submitted and the buttons of the page pressed or not; the same
    with the consumer key left empty. *)
Definition visit (nav : Nav) (submitted pressed : bool) : Inputs :=
  {| in_base_url := "https://shop.example/"; in_consumer_key := "ck_1";
     in_consumer_secret := "cs_1"; in_use_live_keys := false;
     in_submitted := submitted; in_navigate := nav;
     in_per_page := 10; in_page := 1; in_refresh_products := pressed;
     in_selected_product := 0;
     in_sub_per_page := 10; in_sub_page := 1; in_refresh_subscriptions := pressed;
     in_selected_subscription := 0;
     in_test_connection := pressed; in_endpoint := "products"; in_method := GET;
     in_params := per_page_text; in_send_request := pressed;
     in_now := "12:00:00";
     in_view_products := pressed; in_view_subscriptions := false;
     in_test_api := false |}.

Definition incomplete : Inputs :=
  {| in_base_url := "https://shop.example/"; in_consumer_key := EmptyString;
     in_consumer_secret := "cs_1"; in_use_live_keys := false;
     in_submitted := true; in_navigate := NavProducts;
     in_per_page := 10; in_page := 1; in_refresh_products := false;
     in_selected_product := 0;
     in_sub_per_page := 10; in_sub_page := 1; in_refresh_subscriptions := false;
     in_selected_subscription := 0;
     in_test_connection := false; in_endpoint := EmptyString; in_method := GET;
     in_params := EmptyString; in_send_request := false;
     in_now := "12:00:00";
     in_view_products := false; in_view_subscriptions := false;
     in_test_api := false |}.

(** A run that starts in a session connected to the sample shop, with
    what the two pages hold. *)
Definition connected (products subscriptions : SVal) : Run :=
  {| session := {[ "api_configured" := SBool true; "wc_api" := SApi shop;
                   "products_data" := products;
                   "subscriptions_data" := subscriptions ]};
     calls := [status_request shop]; screen := [] |}.

(** A run that starts in a session that is not connected. *)
Definition disconnected : Run :=
  {| session := defaults; calls := []; screen := [] |}.

(** A run that starts in a session that holds a page name only. *)
Definition paged : Run :=
  {| session := {[ "page" := SStr "Products" ]}; calls := []; screen := [] |}.


Definition nameless_product : JSON := JObj [("id", JInt 2)].

Definition free_product : list (string * JSON) :=
  [("id", JInt 4); ("name", JStr "Flyer"); ("type", JStr "simple");
   ("status", JStr "publish"); ("price", JStr EmptyString);
   ("stock_quantity", JNull); ("categories", JArr []);
   ("date_created", JStr "2024-03-01T09:30:00")].

Definition pending_subscription : list (string * JSON) :=
  [("id", JInt 5); ("status", JStr "on-hold"); ("total", JStr "19.00");
   ("billing", JObj [("first_name", JStr "Ada"); ("last_name", JStr "Lovelace");
                     ("email", JStr "ada@example.org")]);
   ("date_created", JStr "2024-02-01T08:00:00Z");
   ("next_payment_date", JStr EmptyString)].

(** A page that is not a store: status 200 and a body that is not JSON. *)
Definition html_response : Response :=
  response 200 "OK" [] "<html></html>" None.

End AppSpec.
Module Props.
Import Py Http Client Spec.

(** ** [rstrip] *)

Lemma append_nil (t : string) : EmptyString ++ t = t.
Proof. reflexivity. Qed.

Lemma append_cons (a : ascii) (s t : string) : String a s ++ t = String a (s ++ t).
Proof. reflexivity. Qed.

Lemma rstrip_slashes (n : nat) : rstrip "/" (slashes n) = EmptyString.
Proof.
  induction n as [|n IH]; simpl; [reflexivity|].
  now rewrite IH.
Qed.

Lemma rstrip_app_slashes (s : string) (n : nat) :
  rstrip "/" (s ++ slashes n) = rstrip "/" s.
Proof.
  induction s as [|a s IH].
  - rewrite append_nil. apply rstrip_slashes.
  - rewrite append_cons. simpl. now rewrite IH.
Qed.

Lemma rstrip_no_trailing (c : ascii) (s t : string) :
  rstrip c s <> t ++ String c EmptyString.
Proof.
  revert t. induction s as [|a s IH]; intros t; simpl.
  - destruct t; discriminate.
  - destruct (rstrip c s) as [|b r] eqn:E.
    + destruct (Ascii.eqb a c) eqn:Eac.
      * destruct t; discriminate.
      * destruct t as [|x t].
        -- rewrite append_nil. intros H. injection H as ->.
           now rewrite Ascii.eqb_refl in Eac.
        -- rewrite append_cons. intros H. injection H as _ H.
           destruct t; discriminate.
    + destruct t as [|x t]; [discriminate|].
      rewrite append_cons. intros H. injection H as _ H. now apply (IH t).
Qed.

Lemma rstrip_removes_slashes (s : string) :
  exists n, s = rstrip "/" s ++ slashes n.
Proof.
  induction s as [|a s [n IH]]; simpl.
  - now exists O.
  - destruct (rstrip "/" s) as [|b r] eqn:E.
    + destruct (Ascii.eqb a "/") eqn:Ea.
      * apply Ascii.eqb_eq in Ea. subst a. exists (S n).
        rewrite append_nil in *. simpl. now f_equal.
      * exists n. rewrite append_cons. now f_equal.
    + exists n. rewrite append_cons. now f_equal.
Qed.

(** ** The client *)

Ltac run :=
  unfold get_products, get_subscriptions, test_connection, try_except, bind,
    requests_get, requests_post, requests_put, requests_delete, send, lift, ret,
    show; cbn beta iota.

Lemma success_shape_keys d :
  success_shape d ->
  d !! "success" = Some (JBool true) /\ is_Some (d !! "data")
  /\ is_Some (d !! "total_pages") /\ is_Some (d !! "total_items")
  /\ d !! "error" = None.
Proof. intros (data & tp & ti & ->). repeat split; eexists; reflexivity. Qed.

Lemma failure_shape_keys d :
  failure_shape d ->
  d !! "success" = Some (JBool false) /\ is_Some (d !! "error")
  /\ d !! "data" = None /\ d !! "total_pages" = None /\ d !! "total_items" = None.
Proof. intros (msg & ->). repeat split. eexists; reflexivity. Qed.

Lemma connected_shape_keys d :
  connected_shape d ->
  d !! "success" = Some (JBool true) /\ d !! "error" = None
  /\ d !! "data" = None /\ d !! "total_pages" = None /\ d !! "total_items" = None.
Proof. intros ->. repeat split. Qed.

Section ClientProps.

Variable transport : Request -> Res Response.
Variable str_exc : PyExc -> string.

Lemma get_products_run api per_page page w :
  get_products transport str_exc api per_page page w
  = (inr (listing str_exc (transport (products_request api per_page page))),
     after w (products_request api per_page page)).
Proof.
  run. fold (products_request api per_page page). unfold listing.
  destruct (transport _) as [e|r]; [reflexivity|].
  destruct (raise_for_status r); [reflexivity|].
  destruct (response_json r); [reflexivity|].
  destruct (int (headers_get r "X-WP-TotalPages" 1)); [reflexivity|].
  destruct (int (headers_get r "X-WP-Total" 0)); reflexivity.
Qed.

Lemma get_subscriptions_run api per_page page w :
  get_subscriptions transport str_exc api per_page page w
  = (inr (listing str_exc (transport (subscriptions_request api per_page page))),
     after w (subscriptions_request api per_page page)).
Proof.
  run. fold (subscriptions_request api per_page page). unfold listing.
  destruct (transport _) as [e|r]; [reflexivity|].
  destruct (raise_for_status r); [reflexivity|].
  destruct (response_json r); [reflexivity|].
  destruct (int (headers_get r "X-WP-TotalPages" 1)); [reflexivity|].
  destruct (int (headers_get r "X-WP-Total" 0)); reflexivity.
Qed.

Lemma test_connection_run api w :
  test_connection transport str_exc api w
  = (inr (match transport (status_request api) with
          | inl e => failure str_exc e
          | inr r =>
              match raise_for_status r with
              | inl e => failure str_exc e
              | inr _ => {[ "success" := JBool true;
                            "message" := JStr "Connection successful!" ]}
              end
          end),
     after w (status_request api)).
Proof.
  run. fold (status_request api).
  destruct (transport _) as [e|r]; [reflexivity|].
  destruct (raise_for_status r); reflexivity.
Qed.

Lemma raise_for_status_error (r : Response) :
  400 <= status_code r < 600 ->
  raise_for_status r = inl (HTTPError (status_code r) (reason r) (url r)).
Proof.
  intros [Hlo Hhi]. unfold raise_for_status.
  apply Z.leb_le in Hlo. apply Z.ltb_lt in Hhi. now rewrite Hlo, Hhi.
Qed.

Lemma raise_for_status_ok (r : Response) :
  status_code r < 400 \/ 600 <= status_code r -> raise_for_status r = inr tt.
Proof.
  intros H. unfold raise_for_status.
  destruct (400 <=? status_code r) eqn:Hlo; [|reflexivity].
  destruct (status_code r <? 600) eqn:Hhi; [|reflexivity].
  apply Z.leb_le in Hlo. apply Z.ltb_lt in Hhi. lia.
Qed.

Lemma listing_expected_failure out e :
  expected_failure out e ->
  listing str_exc out = {[ "success" := JBool false; "error" := JStr (str_exc e) ]}.
Proof.
  intros [-> | (r & -> & Hst & ->)]; [reflexivity|].
  unfold listing. now rewrite raise_for_status_error.
Qed.

(** C6: [get_products] makes exactly one call, a GET of
    [<base URL>/wp-json/wc/v3/products] that authenticates with the
    consumer key and secret and passes [per_page], [page] and
    [status = publish] as query parameters: the calls made are those made
    before and this one.  The base URL is the one the constructor stored. *)
Theorem C6_get_products_request base key secret per_page page w :
  sent (snd (get_products transport str_exc (init base key secret) per_page page w))
  = (sent w ++
     [ {| req_method := GET;
          req_url := (base_url (init base key secret) ++ "/wp-json/wc/v3/products")%string;
          req_auth := (key, secret);
          req_params := Some (JObj [("per_page", JInt per_page); ("page", JInt page);
                                    ("status", JStr "publish")]);
          req_json := None |} ])%list.
Proof. now rewrite get_products_run. Qed.

(** C10: the constructor stores the base URL without its trailing
    slashes: what it stores does not change with the number of slashes at
    the end, does not end in a slash, and differs from the text given only
    by slashes at the end; and the URL of every call is that stored text
    followed by [/wp-json/wc/v3/] and the name of the endpoint. *)
Theorem C10_base_url_normalized base key secret n per_page page w :
  let api := init (base ++ slashes n) key secret in
  base_url api = rstrip "/" base
  /\ (forall t, base_url api <> t ++ "/")
  /\ (exists m, base = rstrip "/" base ++ slashes m)
  /\ map req_url (sent (snd (get_products transport str_exc api per_page page w)))
     = (map req_url (sent w) ++ [(rstrip "/" base ++ "/wp-json/wc/v3/products")%string])%list
  /\ map req_url (sent (snd (get_subscriptions transport str_exc api per_page page w)))
     = (map req_url (sent w) ++ [(rstrip "/" base ++ "/wp-json/wc/v3/subscriptions")%string])%list
  /\ map req_url (sent (snd (test_connection transport str_exc api w)))
     = (map req_url (sent w) ++ [(rstrip "/" base ++ "/wp-json/wc/v3/system_status")%string])%list.
Proof.
  intros api.
  assert (Hb : base_url api = rstrip "/" base) by apply rstrip_app_slashes.
  split; [exact Hb|]. split.
  { intros t. rewrite Hb. apply rstrip_no_trailing. }
  split; [apply rstrip_removes_slashes|].
  rewrite get_products_run, get_subscriptions_run, test_connection_run.
  cbn [snd after sent]. rewrite !map_app. cbn [map req_url products_request
    subscriptions_request status_request]. now rewrite Hb.
Qed.

(** C3: no operation of the client raises: each returns a dict, whatever
    the transport does; and when the transport raised, or the server
    answered with a 4xx or 5xx status, that dict is the failure value
    that carries the text of the exception. *)
Theorem C3_failures_are_values api per_page page w :
  (exists d, fst (get_products transport str_exc api per_page page w) = inr d
     /\ forall e, expected_failure (transport (products_request api per_page page)) e ->
          d = {[ "success" := JBool false; "error" := JStr (str_exc e) ]})
  /\ (exists d, fst (get_subscriptions transport str_exc api per_page page w) = inr d
     /\ forall e, expected_failure (transport (subscriptions_request api per_page page)) e ->
          d = {[ "success" := JBool false; "error" := JStr (str_exc e) ]})
  /\ (exists d, fst (test_connection transport str_exc api w) = inr d
     /\ forall e, expected_failure (transport (status_request api)) e ->
          d = {[ "success" := JBool false; "error" := JStr (str_exc e) ]}).
Proof.
  rewrite get_products_run, get_subscriptions_run, test_connection_run.
  cbn [fst]. repeat split; eexists; (split; [reflexivity|]); intros e He.
  - now apply listing_expected_failure.
  - now apply listing_expected_failure.
  - destruct He as [-> | (r & -> & Hst & ->)]; [reflexivity|].
    now rewrite raise_for_status_error.
Qed.

Lemma call_run which api per_page page w :
  call transport str_exc which api per_page page w
  = (inr (listing str_exc (transport (listing_request which api per_page page))),
     after w (listing_request which api per_page page)).
Proof. destruct which; [apply get_products_run | apply get_subscriptions_run]. Qed.

Lemma listing_shape out : success_shape (listing str_exc out) \/ failure_shape (listing str_exc out).
Proof.
  unfold listing, failure.
  destruct out as [e|r]; [right; eexists; reflexivity|].
  destruct (raise_for_status r); [right; eexists; reflexivity|].
  destruct (response_json r); [right; eexists; reflexivity|].
  destruct (int (headers_get r "X-WP-TotalPages" 1)); [right; eexists; reflexivity|].
  destruct (int (headers_get r "X-WP-Total" 0)); [right; eexists; reflexivity|].
  left. do 3 eexists. reflexivity.
Qed.

(** C7, as amended: [get_products] and [get_subscriptions] return either
    the success dict, with exactly the keys success, data, total_pages and
    total_items, or the failure dict, with exactly the keys success and
    error; [test_connection] returns either the dict with exactly success
    and the message [Connection successful!] (no data, no page counts), or
    the failure dict. *)
Theorem C7_result_shapes api per_page page w :
  (exists d, fst (get_products transport str_exc api per_page page w) = inr d
     /\ (success_shape d \/ failure_shape d))
  /\ (exists d, fst (get_subscriptions transport str_exc api per_page page w) = inr d
     /\ (success_shape d \/ failure_shape d))
  /\ (exists d, fst (test_connection transport str_exc api w) = inr d
     /\ (connected_shape d \/ failure_shape d)).
Proof.
  rewrite get_products_run, get_subscriptions_run, test_connection_run.
  cbn [fst]. repeat split; eexists; (split; [reflexivity|]).
  - apply listing_shape.
  - apply listing_shape.
  - destruct (transport _) as [e|r]; [right; eexists; reflexivity|].
    destruct (raise_for_status r); [right; eexists; reflexivity|].
    now left.
Qed.

(** C2, as amended: for a response with a 4xx or 5xx status, that is one
    for which [raise_for_status] raises, [get_products] and
    [get_subscriptions] return the failure dict: success is false, error
    is the text of the [HTTPError], and there is no data. *)
Theorem C2_error_status_is_failure which api per_page page w r :
  transport (listing_request which api per_page page) = inr r ->
  400 <= status_code r < 600 ->
  exists d, fst (call transport str_exc which api per_page page w) = inr d
    /\ d !! "success" = Some (JBool false)
    /\ d !! "error" = Some (JStr (str_exc (HTTPError (status_code r) (reason r) (url r))))
    /\ d !! "data" = None
    /\ failure_shape d.
Proof.
  intros Hr Hst. rewrite call_run, Hr. cbn [fst]. eexists. split; [reflexivity|].
  unfold listing. rewrite raise_for_status_error by exact Hst.
  repeat split. eexists; reflexivity.
Qed.


(** A header that is there and is not the text of an integer makes the
    call fail with the [ValueError] of [int]. *)
Lemma get_products_bad_header api per_page page w r data s :
  transport (products_request api per_page page) = inr r ->
  200 <= status_code r < 300 ->
  json r = Some data ->
  headers r !! "x-wp-totalpages" = Some s ->
  int_of_str s = None ->
  fst (get_products transport str_exc api per_page page w)
  = inr {[ "success" := JBool false; "error" := JStr (str_exc (ValueError s)) ]}.
Proof.
  intros Hr Hst Hj Hh Hs. rewrite get_products_run, Hr. cbn [fst]. f_equal.
  unfold listing. rewrite raise_for_status_ok by lia.
  unfold response_json. rewrite Hj. unfold headers_get, int.
  change (lower "X-WP-TotalPages") with "x-wp-totalpages".
  now rewrite Hh, Hs.
Qed.

End ClientProps.

(** *** Concrete runs *)



Lemma C2_error_status_is_failure_witness :
  exists d, fst (get_products (server not_found_response) sample_str_exc shop 10 1 w0) = inr d
    /\ d !! "success" = Some (JBool false)
    /\ d !! "error"
       = Some (JStr "404 Error: Not Found for url: https://shop.example/wp-json/wc/v3/products")
    /\ d !! "data" = None
    /\ failure_shape d.
Proof.
  apply (C2_error_status_is_failure (server not_found_response) sample_str_exc
           Products shop 10 1 w0 not_found_response).
  - reflexivity.
  - simpl. lia.
Defined.

(** C2 as stated fails: status 300 is not a 2xx status, and both listing
    calls return the success dict, with data. *)
Lemma C2_counterexample :
  ~ (200 <= status_code multiple_choices_response < 300)
  /\ fst (get_products (server multiple_choices_response) sample_str_exc shop 10 1 w0)
     = inr {[ "success" := JBool true; "data" := JArr [];
              "total_pages" := JInt 1; "total_items" := JInt 0 ]}
  /\ fst (get_subscriptions (server multiple_choices_response) sample_str_exc shop 10 1 w0)
     = inr {[ "success" := JBool true; "data" := JArr [];
              "total_pages" := JInt 1; "total_items" := JInt 0 ]}.
Proof. split; [simpl; lia|]. split; reflexivity. Qed.

(** C7 as stated fails: on success [test_connection] returns a dict that
    has neither data nor page counts. *)
Lemma C7_counterexample :
  exists d, fst (test_connection (server paged_response) sample_str_exc shop w0) = inr d
    /\ d !! "success" = Some (JBool true)
    /\ d !! "data" = None
    /\ d !! "total_pages" = None
    /\ d !! "total_items" = None.
Proof. eexists. split; [reflexivity|]. repeat split. Qed.

(** ** The rows *)

Import Views.

Lemma subscript_obj members key v :
  obj_lookup members key = Some v -> subscript (JObj members) key = inr v.
Proof. intros H. unfold subscript. now rewrite H. Qed.

Lemma names_named cats ns : named cats ns -> names cats = inr (map JStr ns).
Proof.
  induction 1 as [|c n cats ns (m & -> & Hm) _ IH]; [reflexivity|].
  cbn [names]. rewrite (subscript_obj _ _ _ Hm). cbn [res_bind].
  now rewrite IH.
Qed.

Lemma strs_map_JStr ns : strs (map JStr ns) = inr ns.
Proof.
  induction ns as [|n ns IH]; [reflexivity|].
  cbn [map strs]. now rewrite IH.
Qed.

Section RowProps.

Variable str_other : JSON -> string.
Variable isoformat_date : string -> option string.

(** The row of a product that has all the fields the table reads, a
    non-empty price text and a list of named categories. *)
Lemma product_row_ok members id name type status price cats ns created date :
  obj_lookup members "id" = Some id ->
  obj_lookup members "name" = Some name ->
  obj_lookup members "type" = Some type ->
  obj_lookup members "status" = Some status ->
  obj_lookup members "price" = Some (JStr price) ->
  str_truthy price = true ->
  obj_lookup members "categories" = Some (JArr cats) ->
  named cats ns ->
  obj_lookup members "date_created" = Some (JStr created) ->
  isoformat_date (replace "Z" "+00:00" created) = Some date ->
  product_row str_other isoformat_date (JObj members)
  = inr {[ "ID" := id; "Name" := name; "Type" := type; "Status" := status;
           "Price" := JStr ("$" ++ price);
           "Stock" := default (JStr "N/A") (obj_lookup members "stock_quantity");
           "Categories" := JStr (join ", " ns); "Date Created" := JStr date ]}.
Proof.
  intros Hid Hname Htype Hstatus Hprice Hne Hcats Hnamed Hcreated Hdate.
  unfold product_row.
  rewrite (subscript_obj _ _ _ Hid), (subscript_obj _ _ _ Hname),
    (subscript_obj _ _ _ Htype), (subscript_obj _ _ _ Hstatus),
    (subscript_obj _ _ _ Hprice), (subscript_obj _ _ _ Hcats),
    (subscript_obj _ _ _ Hcreated).
  cbn [res_bind truthy]. rewrite Hne. cbn [res_bind format iter get].
  rewrite (names_named _ _ Hnamed). cbn [res_bind].
  rewrite strs_map_JStr. cbn [res_bind].
  unfold date_column. cbn [str_replace res_bind]. rewrite Hdate.
  destruct (obj_lookup members "stock_quantity"); reflexivity.
Qed.

(** C8: a product with the fields of the table (id, name, type, status
    and a date of creation that [fromisoformat] reads), with the price
    text 9.99 and one category named A, is mapped to a row whose Price is
    [$9.99] and whose Categories is [A]. *)
Theorem C8_product_row_price_and_categories
    members id name type status cat created date :
  obj_lookup members "id" = Some id ->
  obj_lookup members "name" = Some name ->
  obj_lookup members "type" = Some type ->
  obj_lookup members "status" = Some status ->
  obj_lookup members "price" = Some (JStr "9.99") ->
  obj_lookup members "categories" = Some (JArr [JObj cat]) ->
  obj_lookup cat "name" = Some (JStr "A") ->
  obj_lookup members "date_created" = Some (JStr created) ->
  isoformat_date (replace "Z" "+00:00" created) = Some date ->
  exists row,
    product_row str_other isoformat_date (JObj members) = inr row
    /\ row !! "Price" = Some (JStr "$9.99")
    /\ row !! "Categories" = Some (JStr "A").
Proof.
  intros Hid Hname Htype Hstatus Hprice Hcats Hcat Hcreated Hdate.
  eexists. split.
  - apply (product_row_ok members id name type status "9.99" [JObj cat] ["A"]
             created date); try assumption; [reflexivity|].
    constructor; [|constructor]. now exists cat.
  - split; reflexivity.
Qed.

(** C9: a subscription with the fields of the table and without
    next_payment_date is mapped to the row whose Next Payment is [N/A];
    the other columns are the id, the status, the total after a dollar
    sign, the first and last name of the billing address around a blank,
    its email, and the date of creation. *)
Theorem C9_subscription_row_without_next_payment
    members id status total billing first_name last_name email created date :
  obj_lookup members "id" = Some id ->
  obj_lookup members "status" = Some status ->
  obj_lookup members "total" = Some total ->
  obj_lookup members "billing" = Some (JObj billing) ->
  obj_lookup billing "first_name" = Some first_name ->
  obj_lookup billing "last_name" = Some last_name ->
  obj_lookup billing "email" = Some email ->
  obj_lookup members "date_created" = Some (JStr created) ->
  isoformat_date (replace "Z" "+00:00" created) = Some date ->
  obj_lookup members "next_payment_date" = None ->
  subscription_row str_other isoformat_date (JObj members)
  = inr {[ "ID" := id; "Status" := status;
           "Total" := JStr ("$" ++ format str_other total);
           "Customer" := JStr (format str_other first_name ++ " "
                               ++ format str_other last_name);
           "Email" := email; "Start Date" := JStr date;
           "Next Payment" := JStr "N/A" ]}.
Proof.
  intros Hid Hstatus Htotal Hbilling Hfirst Hlast Hemail Hcreated Hdate Hnext.
  unfold subscription_row.
  rewrite (subscript_obj _ _ _ Hid), (subscript_obj _ _ _ Hstatus),
    (subscript_obj _ _ _ Htotal), (subscript_obj _ _ _ Hbilling).
  cbn [res_bind].
  rewrite (subscript_obj _ _ _ Hfirst), (subscript_obj _ _ _ Hlast),
    (subscript_obj _ _ _ Hemail), (subscript_obj _ _ _ Hcreated).
  cbn [res_bind]. unfold date_column. cbn [str_replace res_bind]. rewrite Hdate.
  cbn [res_bind get]. now rewrite Hnext.
Qed.


(** The first item without a row ends the table with its exception. *)
Lemma rows_raise row items rs x e rest :
  Forall2 (fun y r => row y = inr r) items rs ->
  row x = inl e ->
  rows row (items ++ x :: rest) = inl e.
Proof.
  induction 1 as [|y r items rs Hy _ IH]; intros Hx.
  - cbn [app rows]. now rewrite Hx.
  - cbn [app rows]. rewrite Hy. cbn [res_bind]. now rewrite IH.
Qed.

End RowProps.

(** ** White space and [json.loads] *)

Lemma str_truthy_false s : str_truthy s = false -> s = EmptyString.
Proof. destruct s; [reflexivity | discriminate]. Qed.

Lemma wide_space_prefix_shorter s r :
  wide_space_prefix s = Some r -> (String.length r < String.length s)%nat.
Proof.
  unfold wide_space_prefix.
  destruct s as [|a [|b r2]]; try discriminate.
  destruct (byte_in a 194 194 && (byte_in b 133 133 || byte_in b 160 160)).
  - intros [= <-]. cbn [String.length]. lia.
  - destruct r2 as [|c r3]; [discriminate|].
    match goal with |- (if ?c then _ else _) = _ -> _ => destruct c end;
      [|discriminate].
    intros [= <-]. cbn [String.length]. lia.
Qed.

Lemma space_prefix_shorter s r :
  space_prefix s = Some r -> (String.length r < String.length s)%nat.
Proof.
  unfold space_prefix. destruct s as [|a s']; [discriminate|].
  destruct (byte_in a 9 13 || byte_in a 28 32).
  - intros [= <-]. cbn [String.length]. lia.
  - apply wide_space_prefix_shorter.
Qed.

Lemma lstrip_n_done n s :
  (String.length s <= n)%nat -> space_prefix (lstrip_n n s) = None.
Proof.
  revert s. induction n as [|n IH]; intros s Hlen.
  - destruct s; [reflexivity | cbn [String.length] in Hlen; lia].
  - cbn [lstrip_n]. destruct (space_prefix s) as [r|] eqn:E; [|exact E].
    apply IH. apply space_prefix_shorter in E. lia.
Qed.

(** What [strip] leaves is empty exactly when what [lstrip] leaves is. *)
Lemma strip_truthy s : str_truthy (strip s) = str_truthy (lstrip s).
Proof.
  unfold strip. pose proof (lstrip_n_done (String.length s) s (le_n _)) as Hdone.
  fold (lstrip s) in Hdone. destruct (lstrip s) as [|a t]; [reflexivity|].
  cbn [rstrip_space]. unfold isspace_all, lstrip. cbn [String.length lstrip_n].
  now rewrite Hdone.
Qed.

Lemma space_prefix_lead a s r : space_prefix (String a s) = Some r -> space_lead a = true.
Proof.
  unfold space_prefix, space_lead.
  destruct (byte_in a 9 13 || byte_in a 28 32); [reflexivity|].
  unfold wide_space_prefix. destruct s as [|b r2]; [discriminate|].
  destruct (byte_in a 194 194) eqn:E194; [now rewrite orb_true_r|].
  cbn [andb orb]. destruct r2 as [|c r3]; [discriminate|].
  destruct (byte_in a 225 227) eqn:E; [reflexivity|].
  assert (byte_in a 225 225 = false /\ byte_in a 226 226 = false
          /\ byte_in a 227 227 = false) as (-> & -> & ->).
  { unfold byte_in in *. repeat split; apply andb_false_iff;
      apply andb_false_iff in E; destruct E as [E|E];
      apply N.leb_gt in E; [left|right|left|right|left|right];
      apply N.leb_gt; lia. }
  discriminate.
Qed.

Lemma is_ws_space_prefix a s : Json.is_ws a = true -> space_prefix (String a s) = Some s.
Proof.
  unfold Json.is_ws. intros H.
  repeat (apply orb_true_iff in H; destruct H as [H|H]);
    apply Ascii.eqb_eq in H; subst a; reflexivity.
Qed.

(** No value of a JSON document starts with such a byte. *)
Lemma scan_once_space_lead fuel a s :
  space_lead a = true -> Json.scan_once fuel (String a s) = None.
Proof.
  destruct fuel as [|fuel]; [reflexivity|].
  destruct a as [b0 b1 b2 b3 b4 b5 b6 b7].
  destruct b0, b1, b2, b3, b4, b5, b6, b7; intros H; try discriminate H;
    reflexivity.
Qed.

Lemma scan_once_blank fuel n s :
  lstrip_n n s = EmptyString -> Json.scan_once fuel (Json.skip_ws s) = None.
Proof.
  revert s. induction n as [|n IH]; intros s H.
  - cbn [lstrip_n] in H. subst s. destruct fuel; reflexivity.
  - cbn [lstrip_n] in H. destruct s as [|a s'].
    { destruct fuel; reflexivity. }
    destruct (space_prefix (String a s')) as [r|] eqn:E; [|discriminate H].
    cbn [Json.skip_ws]. destruct (Json.is_ws a) eqn:Ews.
    + rewrite (is_ws_space_prefix _ _ Ews) in E. injection E as <-. now apply IH.
    + apply scan_once_space_lead. now apply (space_prefix_lead a s' r).
Qed.

(** A text that [json.loads] accepts is not blank: [strip] leaves
    something of it. *)
Lemma loads_not_blank s v : Json.loads s = Some v -> str_truthy (strip s) = true.
Proof.
  intros H. rewrite strip_truthy.
  destruct (str_truthy (lstrip s)) eqn:E; [reflexivity|].
  apply str_truthy_false in E. unfold Json.loads in H.
  now rewrite (scan_once_blank _ _ _ E) in H.
Qed.

(** ** The fuel of [json.loads]

    Every step of the decoder reads at least one character, so twice the
    length of the text is fuel enough. *)

Lemma skip_ws_length s : (String.length (Json.skip_ws s) <= String.length s)%nat.
Proof.
  induction s as [|a s IH]; cbn [Json.skip_ws]; [lia|].
  destruct (Json.is_ws a); cbn [String.length] in *; lia.
Qed.

Lemma strip_prefix_length p s r :
  Json.strip_prefix p s = Some r -> (String.length r + String.length p = String.length s)%nat.
Proof.
  revert s. induction p as [|a p IH]; intros s; cbn [Json.strip_prefix].
  - intros [= ->]. cbn [String.length]. lia.
  - destruct s as [|b s]; [discriminate|].
    destruct (Ascii.eqb a b); [|discriminate].
    intros H. apply IH in H. cbn [String.length]. lia.
Qed.

Lemma prepend_some p res x r :
  Json.prepend p res = Some (x, r) -> exists y, res = Some (y, r).
Proof.
  unfold Json.prepend. destruct res as [[y r']|]; [|discriminate].
  intros [= _ ->]. now exists y.
Qed.

Lemma scanstring_shorter_n n : forall hi s x r,
  (String.length s <= n)%nat -> Json.scanstring hi s = Some (x, r) -> (String.length r < String.length s)%nat.
Proof.
  induction n as [|n IH]; intros hi s x r Hlen H.
  - destruct s; [discriminate H | cbn [String.length] in Hlen; lia].
  - destruct s as [|c s1]; [discriminate H|].
    cbn [Json.scanstring] in H. cbn [String.length] in *.
    destruct (Ascii.eqb c "034").
    { injection H as _ ->. lia. }
    destruct (Ascii.eqb c "\").
    + destruct s1 as [|e s2]; [discriminate H|].
      cbn [String.length] in *.
      destruct (Ascii.eqb e "u").
      * destruct s2 as [|h1 [|h2 [|h3 [|h4 s6]]]]; try discriminate H.
        cbn [String.length] in *.
        destruct (Json.hex4 h1 h2 h3 h4) as [u|]; [|discriminate H].
        assert (Hrec : forall hi' p, Json.prepend p (Json.scanstring hi' s6) = Some (x, r) ->
                                (String.length r < String.length s6)%nat).
        { intros hi' p Hp. apply prepend_some in Hp as [y Hy].
          apply (IH hi' s6 y r); [lia | exact Hy]. }
        assert (Hrec0 : forall hi', Json.scanstring hi' s6 = Some (x, r) ->
                                (String.length r < String.length s6)%nat).
        { intros hi' Hp. apply (IH hi' s6 x r); [lia | exact Hp]. }
        destruct hi as [h|].
        -- destruct (Json.is_low u); [apply Hrec in H; lia|].
           destruct (Json.is_high u); apply Hrec in H; lia.
        -- destruct (Json.is_high u); [apply Hrec0 in H; lia | apply Hrec in H; lia].
      * destruct (Json.simple_escape e); [|discriminate H].
        apply prepend_some in H as [y Hy]. apply IH in Hy; lia.
    + destruct (byte_in c 0 31); [discriminate H|].
      apply prepend_some in H as [y Hy]. apply IH in Hy; lia.
Qed.

Lemma scanstring_shorter hi s x r :
  Json.scanstring hi s = Some (x, r) -> (String.length r < String.length s)%nat.
Proof. apply (scanstring_shorter_n (String.length s)). lia. Qed.

Lemma scan_num_length s : forall acc k m k' r,
  Json.scan_num acc k s = (m, k', r) -> (String.length r <= String.length s)%nat.
Proof.
  induction s as [|a s IH]; intros acc k m k' r; cbn [Json.scan_num].
  - intros [= _ _ <-]. lia.
  - destruct (is_digit a).
    + intros H. apply IH in H. cbn [String.length]. lia.
    + intros [= _ _ <-]. lia.
Qed.

Lemma scan_frac_length m s m' k r :
  Json.scan_frac m s = Some (m', k, r) -> (String.length r <= String.length s)%nat.
Proof.
  unfold Json.scan_frac. destruct s as [|dot [|d s]]; try discriminate.
  destruct (Ascii.eqb dot "." && is_digit d); [|discriminate].
  destruct (Json.scan_num m 0 (String d s)) as [[a b] c] eqn:E.
  intros [= -> -> ->]. apply scan_num_length in E. cbn [String.length] in *. lia.
Qed.

Lemma scan_exp_length s x r :
  Json.scan_exp s = Some (x, r) -> (String.length r <= String.length s)%nat.
Proof.
  unfold Json.scan_exp. destruct s as [|e s]; [discriminate|].
  destruct (Ascii.eqb e "e" || Ascii.eqb e "E"); [|discriminate].
  assert (Hgen : forall neg r1, (String.length r1 <= String.length s)%nat ->
    match r1 with
    | String d _ =>
        if is_digit d then
          let '(x, _, rest) := Json.scan_num 0 0 r1 in
          Some (if neg : bool then (- Z.of_N x)%Z else Z.of_N x, rest)
        else None
    | EmptyString => None
    end = Some (x, r) -> (String.length r <= String.length (String e s))%nat).
  { intros neg r1 Hr1. destruct r1 as [|d r1']; [discriminate|].
    destruct (is_digit d); [|discriminate].
    destruct (Json.scan_num 0 0 (String d r1')) as [[m k] rest] eqn:E.
    intros [= _ <-]. apply scan_num_length in E. cbn [String.length] in *. lia. }
  destruct s as [|sg s']; [apply (Hgen false EmptyString); lia|].
  destruct (Ascii.eqb sg "-"); [apply (Hgen true s'); cbn [String.length]; lia|].
  destruct (Ascii.eqb sg "+");
    [apply (Hgen false s') | apply (Hgen false (String sg s'))];
    cbn [String.length]; lia.
Qed.

Lemma match_number_shorter s v r :
  Json.match_number s = Some (v, r) -> (String.length r < String.length s)%nat.
Proof.
  unfold Json.match_number.
  assert (Hgen : forall neg s1, (String.length s1 <= String.length s)%nat ->
    match s1 with
    | String d r0 =>
        if is_digit d then
          let '(m, rest) :=
            if Ascii.eqb d "0" then (0%N, r0)
            else let '(x, _, rest) := Json.scan_num 0 0 s1 in (x, rest) in
          match Json.scan_frac m rest, Json.scan_exp rest with
          | Some (mf, k, rest1), _ =>
              match Json.scan_exp rest1 with
              | Some (x, rest2) => Some (JFloat (FDec neg mf (x - Z.of_nat k)), rest2)
              | None => Some (JFloat (FDec neg mf (- Z.of_nat k)), rest1)
              end
          | None, Some (x, rest2) => Some (JFloat (FDec neg m x), rest2)
          | None, None => Some (JInt (if neg : bool then (- Z.of_N m)%Z else Z.of_N m), rest)
          end
        else None
    | EmptyString => None
    end = Some (v, r) -> (String.length r < String.length s)%nat).
  { intros neg s1 Hs1. destruct s1 as [|d r0]; [discriminate|].
    destruct (is_digit d) eqn:Ed; [|discriminate].
    assert (Hm : forall m rest,
      (if Ascii.eqb d "0" then (0%N, r0)
       else let '(x, _, rest) := Json.scan_num 0 0 (String d r0) in (x, rest)) = (m, rest) ->
      (String.length rest <= String.length r0)%nat).
    { intros m rest. destruct (Ascii.eqb d "0"); [intros [= _ <-]; lia|].
      cbn [Json.scan_num]. rewrite Ed.
      destruct (Json.scan_num _ _ r0) as [[x k] rest'] eqn:E.
      intros [= _ <-]. now apply scan_num_length in E. }
    destruct (if Ascii.eqb d "0" then _ else _) as [m rest] eqn:Em.
    specialize (Hm m rest eq_refl). cbn [String.length] in Hs1.
    destruct (Json.scan_frac m rest) as [[[mf k] rest1]|] eqn:Ef.
    - apply scan_frac_length in Ef.
      destruct (Json.scan_exp rest1) as [[x rest2]|] eqn:Ee.
      + apply scan_exp_length in Ee. intros [= _ <-]. lia.
      + intros [= _ <-]. lia.
    - destruct (Json.scan_exp rest) as [[x rest2]|] eqn:Ee.
      + apply scan_exp_length in Ee. intros [= _ <-]. lia.
      + intros [= _ <-]. lia. }
  destruct s as [|a s']; [apply (Hgen false EmptyString); lia|].
  destruct (Ascii.eqb a "-");
    [apply (Hgen true s') | apply (Hgen false (String a s'))];
    cbn [String.length]; lia.
Qed.

Lemma literal_shorter word v s x r :
  word <> EmptyString -> Json.literal word v s = Some (x, r) -> (String.length r < String.length s)%nat.
Proof.
  unfold Json.literal. intros Hw. destruct (Json.strip_prefix word s) as [rest|] eqn:E; [|discriminate].
  intros [= _ <-]. apply strip_prefix_length in E.
  destruct word; [congruence|]. cbn [String.length] in E. lia.
Qed.

Lemma skip_ws_cons_length s q r :
  Json.skip_ws s = String q r -> (String.length r < String.length s)%nat.
Proof.
  intros H. pose proof (skip_ws_length s) as Hl. rewrite H in Hl.
  cbn [String.length] in Hl. lia.
Qed.

Lemma scan_consumes fuel :
  (forall s v r, Json.scan_once fuel s = Some (v, r) -> (String.length r < String.length s)%nat)
  /\ (forall acc s v r, Json.parse_items fuel acc s = Some (v, r) -> (String.length r < String.length s)%nat)
  /\ (forall acc s v r, Json.parse_members fuel acc s = Some (v, r) -> (String.length r < String.length s)%nat).
Proof.
  induction fuel as [|fuel (IHv & IHi & IHm)].
  - repeat split; intros; discriminate.
  - split; [|split].
    + intros s v r H. destruct s as [|c s1]; [discriminate H|].
      cbn [Json.scan_once] in H.
      destruct (Ascii.eqb c "034").
      { destruct (Json.scanstring None s1) as [[str rest]|] eqn:E; [|discriminate H].
        injection H as _ <-. apply scanstring_shorter in E. cbn [String.length]. lia. }
      destruct (Ascii.eqb c "{").
      { destruct (Json.skip_ws s1) as [|q r1] eqn:E; [discriminate H|].
        apply skip_ws_cons_length in E. cbn [String.length].
        destruct (Ascii.eqb q "}"); [injection H as _ <-; lia|].
        destruct (Ascii.eqb q "034"); [|discriminate H].
        apply IHm in H. lia. }
      destruct (Ascii.eqb c "[").
      { pose proof (skip_ws_length s1) as Hl.
        destruct (Json.skip_ws s1) as [|q r1] eqn:E; [discriminate H|].
        cbn [String.length] in *.
        destruct (Ascii.eqb q "]"); [injection H as _ <-; lia|].
        apply IHi in H. cbn [String.length] in H. lia. }
      destruct (Ascii.eqb c "n"); [now apply literal_shorter in H|].
      destruct (Ascii.eqb c "t"); [now apply literal_shorter in H|].
      destruct (Ascii.eqb c "f"); [now apply literal_shorter in H|].
      destruct (Ascii.eqb c "N"); [now apply literal_shorter in H|].
      destruct (Ascii.eqb c "I"); [now apply literal_shorter in H|].
      destruct (Json.literal "-Infinity" _ _) as [[x rest]|] eqn:E.
      * injection H as _ <-. now apply literal_shorter in E.
      * now apply match_number_shorter in H.
    + intros acc s v r H. cbn [Json.parse_items] in H.
      destruct (Json.scan_once fuel s) as [[x rest]|] eqn:E; [|discriminate H].
      apply IHv in E.
      destruct (Json.skip_ws rest) as [|q r1] eqn:Er; [discriminate H|].
      apply skip_ws_cons_length in Er.
      destruct (Ascii.eqb q "]"); [injection H as _ <-; lia|].
      destruct (Ascii.eqb q ","); [|discriminate H].
      apply IHi in H. pose proof (skip_ws_length r1). lia.
    + intros acc s v r H. cbn [Json.parse_members] in H.
      destruct (Json.scanstring None s) as [[key rest]|] eqn:E; [|discriminate H].
      apply scanstring_shorter in E.
      destruct (Json.skip_ws rest) as [|colon r1] eqn:Er; [discriminate H|].
      apply skip_ws_cons_length in Er.
      destruct (Ascii.eqb colon ":"); [|discriminate H].
      destruct (Json.scan_once fuel (Json.skip_ws r1)) as [[x rest1]|] eqn:Ev; [|discriminate H].
      apply IHv in Ev. pose proof (skip_ws_length r1).
      destruct (Json.skip_ws rest1) as [|q r2] eqn:Er1; [discriminate H|].
      apply skip_ws_cons_length in Er1.
      destruct (Ascii.eqb q "}"); [injection H as _ <-; lia|].
      destruct (Ascii.eqb q ","); [|discriminate H].
      destruct (Json.skip_ws r2) as [|quote r3] eqn:Er2; [discriminate H|].
      apply skip_ws_cons_length in Er2.
      destruct (Ascii.eqb quote "034"); [|discriminate H].
      apply IHm in H. lia.
Qed.

Lemma scan_once_shorter fuel s v r :
  Json.scan_once fuel s = Some (v, r) -> (String.length r < String.length s)%nat.
Proof. apply scan_consumes. Qed.

(** With the fuel [loads] gives, no call runs out of it: any larger
    amount gives the same result. *)
Lemma scan_fuel_stable n :
  (forall s f1 f2, (String.length s <= n)%nat -> (2 * n + 1 <= f1)%nat -> (2 * n + 1 <= f2)%nat ->
     Json.scan_once f1 s = Json.scan_once f2 s)
  /\ (forall acc s f1 f2, (String.length s <= n)%nat -> (2 * n + 2 <= f1)%nat -> (2 * n + 2 <= f2)%nat ->
     Json.parse_items f1 acc s = Json.parse_items f2 acc s)
  /\ (forall acc s f1 f2, (String.length s <= n)%nat -> (2 * n + 1 <= f1)%nat -> (2 * n + 1 <= f2)%nat ->
     Json.parse_members f1 acc s = Json.parse_members f2 acc s).
Proof.
  induction n as [n IH] using lt_wf_ind.
  assert (Hv : forall s f1 f2, (String.length s <= n)%nat -> (2 * n + 1 <= f1)%nat ->
                 (2 * n + 1 <= f2)%nat -> Json.scan_once f1 s = Json.scan_once f2 s).
  { intros s f1 f2 Hs H1 H2.
    destruct f1 as [|f1]; [lia|]. destruct f2 as [|f2]; [lia|].
    destruct s as [|c s1]; [reflexivity|].
    cbn [Json.scan_once]. cbn [String.length] in Hs.
    destruct (Ascii.eqb c "034"); [reflexivity|].
    destruct (Ascii.eqb c "{").
    { destruct (Json.skip_ws s1) as [|q r1] eqn:E; [reflexivity|].
      apply skip_ws_cons_length in E.
      destruct (Ascii.eqb q "}"); [reflexivity|].
      destruct (Ascii.eqb q "034"); [|reflexivity].
      apply (IH (String.length r1)); lia. }
    destruct (Ascii.eqb c "["); [|reflexivity].
    pose proof (skip_ws_length s1) as Hl.
    destruct (Json.skip_ws s1) as [|q r1] eqn:E; [reflexivity|].
    destruct (Ascii.eqb q "]"); [reflexivity|].
    apply (IH (String.length (String q r1))); lia. }
  split; [exact Hv|]. split.
  - intros acc s f1 f2 Hs H1 H2.
    destruct f1 as [|f1]; [lia|]. destruct f2 as [|f2]; [lia|].
    cbn [Json.parse_items]. rewrite (Hv s f1 f2) by lia.
    destruct (Json.scan_once f2 s) as [[x rest]|] eqn:E; [|reflexivity].
    apply scan_once_shorter in E.
    destruct (Json.skip_ws rest) as [|q r1] eqn:Er; [reflexivity|].
    apply skip_ws_cons_length in Er.
    destruct (Ascii.eqb q "]"); [reflexivity|].
    destruct (Ascii.eqb q ","); [|reflexivity].
    pose proof (skip_ws_length r1).
    apply (IH (String.length (Json.skip_ws r1))); lia.
  - intros acc s f1 f2 Hs H1 H2.
    destruct f1 as [|f1]; [lia|]. destruct f2 as [|f2]; [lia|].
    cbn [Json.parse_members].
    destruct (Json.scanstring None s) as [[key rest]|] eqn:E; [|reflexivity].
    apply scanstring_shorter in E.
    destruct (Json.skip_ws rest) as [|colon r1] eqn:Er; [reflexivity|].
    apply skip_ws_cons_length in Er.
    destruct (Ascii.eqb colon ":"); [|reflexivity].
    pose proof (skip_ws_length r1).
    assert (Hrec : Json.scan_once f1 (Json.skip_ws r1) = Json.scan_once f2 (Json.skip_ws r1)).
    { apply (IH (String.length (Json.skip_ws r1))); lia. }
    rewrite Hrec.
    destruct (Json.scan_once f2 (Json.skip_ws r1)) as [[x rest1]|] eqn:Ev; [|reflexivity].
    apply scan_once_shorter in Ev.
    destruct (Json.skip_ws rest1) as [|q r2] eqn:Er1; [reflexivity|].
    apply skip_ws_cons_length in Er1.
    destruct (Ascii.eqb q "}"); [reflexivity|].
    destruct (Ascii.eqb q ","); [|reflexivity].
    destruct (Json.skip_ws r2) as [|quote r3] eqn:Er2; [reflexivity|].
    apply skip_ws_cons_length in Er2.
    destruct (Ascii.eqb quote "034"); [|reflexivity].
    apply (IH (String.length r3)); lia.
Qed.

Lemma loads_fuel s fuel :
  (2 * String.length s + 2 <= fuel)%nat ->
  Json.scan_once fuel (Json.skip_ws s) = Json.scan_once (2 * String.length s + 2) (Json.skip_ws s).
Proof.
  intros H. apply (scan_fuel_stable (String.length s)); [apply skip_ws_length | lia | lia].
Qed.

(** ** The custom-endpoint form *)

Import ApiTesting.

Lemma str_truthy_nonempty s : s <> EmptyString -> str_truthy s = true.
Proof. destruct s; [congruence | reflexivity]. Qed.

Section FormProps.

Variable transport : Request -> Res Response.
Variable str_exc : PyExc -> string.



(** A failure of the transport is shown as another error, after the call. *)
Lemma send_request_transport_error api endpoint method params v w detail :
  endpoint <> EmptyString ->
  Json.loads params = Some v ->
  transport (form_request api endpoint method v) = inl (RequestException detail) ->
  send_request transport str_exc api endpoint method params w
  = (inr tt, {| sent := (sent w ++ [form_request api endpoint method v])%list;
                page := (page w ++ [st_error ("Error: "
                                              ++ str_exc (RequestException detail))])%list |}).
Proof.
  intros He Hv Ht. unfold send_request, json_loads.
  rewrite (str_truthy_nonempty _ He), (loads_not_blank _ _ Hv), Hv. run.
  destruct method; unfold form_request in *; cbn [in_query] in *; now rewrite Ht.
Qed.


End FormProps.

(** *** Concrete runs of the form and of the row mappings *)





Lemma C8_product_row_price_and_categories_witness :
  exists row,
    product_row sample_str_other sample_isoformat_date sample_product = inr row
    /\ row !! "Price" = Some (JStr "$9.99")
    /\ row !! "Categories" = Some (JStr "A").
Proof.
  apply (C8_product_row_price_and_categories sample_str_other sample_isoformat_date
           _ (JInt 1) (JStr "Mug") (JStr "simple") (JStr "publish")
           [("id", JInt 7); ("name", JStr "A")] "2024-01-05T10:11:12" "2024-01-05");
    reflexivity.
Defined.

Lemma C9_subscription_row_without_next_payment_witness :
  subscription_row sample_str_other sample_isoformat_date sample_subscription
  = inr {[ "ID" := JInt 3; "Status" := JStr "active"; "Total" := JStr "$19.00";
           "Customer" := JStr "Ada Lovelace"; "Email" := JStr "ada@example.org";
           "Start Date" := JStr "2024-02-01"; "Next Payment" := JStr "N/A" ]}.
Proof.
  apply (C9_subscription_row_without_next_payment sample_str_other sample_isoformat_date
           _ (JInt 3) (JStr "active") (JStr "19.00")
           [("first_name", JStr "Ada"); ("last_name", JStr "Lovelace");
            ("email", JStr "ada@example.org")]
           (JStr "Ada") (JStr "Lovelace") (JStr "ada@example.org")
           "2024-02-01T08:00:00Z" "2024-02-01");
    reflexivity.
Defined.

End Props.

(** * Properties of the pages *)

Module AppProps.
Import Py Http Client Streamlit App Spec AppSpec.

(** ** [init_session_state] *)

Lemma init_key_run key v s :
  init_key key v s
  = (Done tt, {| session := session s ∪ {[ key := v ]}; calls := calls s;
                 screen := screen s |}).
Proof.
  unfold init_key, abind, ss_has, ss_set, areturn. cbn [session calls screen].
  destruct (session s !! key) as [x|] eqn:E.
  - rewrite bool_decide_eq_true_2 by eauto.
    destruct s as [ss cs sc]. cbn in *. do 2 f_equal.
    symmetry. apply map_eq. intros k. rewrite lookup_union.
    destruct (decide (k = key)) as [->|Hne].
    + rewrite E, lookup_singleton_eq. reflexivity.
    + rewrite lookup_singleton_ne by congruence. now destruct (ss !! k).
  - rewrite bool_decide_eq_false_2 by (intros [? ?]; congruence).
    do 2 f_equal. now apply insert_union_singleton_r.
Qed.

Lemma init_session_state_run s :
  init_session_state s
  = (Done tt, {| session := session s ∪ defaults; calls := calls s;
                 screen := screen s |}).
Proof.
  unfold init_session_state, abind. rewrite !init_key_run. cbn [session calls screen].
  do 2 f_equal. rewrite <- !(assoc_L (∪)). f_equal.
Qed.

(** X1. [init_session_state] gives each of its four keys its default
    when the key is absent and leaves every key that is there as it is:
    the session becomes the union of what it was with the defaults.  It
    shows nothing and calls nothing, and running it again changes
    nothing more. *)
Theorem X1_init_session_state_defaults s :
  init_session_state s
  = (Done tt, {| session := session s ∪ defaults; calls := calls s;
                 screen := screen s |})
  /\ init_session_state (snd (init_session_state s))
     = (Done tt, snd (init_session_state s)).
Proof.
  split; [apply init_session_state_run|].
  rewrite !init_session_state_run. cbn [snd session calls screen].
  do 2 f_equal. rewrite <- (assoc_L (∪)). f_equal.
Qed.

(** ** The form, for every input *)

Section FormRuns.

Variable transport : Request -> Res Response.
Variable str_exc : PyExc -> string.







End FormRuns.

(** ** Running the client inside a page *)

(** One step of a run whose session lookups are known. *)
Ltac app_run :=
  repeat (progress
    (unfold abind, emit, ss_get, ss_set, ss_has, areturn, araise, of_res, item,
       sval_item, ss_item, as_api, st_rerun, atry;
     cbn [session calls screen fst snd sval_truthy truthy negb andb];
     simpl_map)).

Lemma http_run {A} (m : Http.M A) s a w :
  m {| sent := calls s; page := [] |} = (inr a, w) ->
  http m s = (Done a, {| session := session s; calls := sent w;
                         screen := screen s ++ map el (page w) |}).
Proof. intros H. unfold http. now rewrite H. Qed.

(** ** Steps of a run *)

Lemma abind_areturn {A B} (a : A) (k : A -> Script B) s : abind (areturn a) k s = k a s.
Proof. reflexivity. Qed.

Lemma abind_emit {B} o (k : unit -> Script B) s : abind (emit o) k s = k tt (shown s o).
Proof. reflexivity. Qed.

Lemma abind_ss_get {B} key (k : SVal -> Script B) s v :
  session s !! key = Some v -> abind (ss_get key) k s = k v s.
Proof. intros H. unfold abind, ss_get. now rewrite H. Qed.

Lemma abind_ss_set {B} key v (k : unit -> Script B) s :
  abind (ss_set key v) k s
  = k tt {| session := <[ key := v ]> (session s); calls := calls s;
            screen := screen s |}.
Proof. reflexivity. Qed.

Lemma abind_assoc {A B C} (m : Script A) (f : A -> Script B) (g : B -> Script C) s :
  abind (abind m f) g s = abind m (fun x => abind (f x) g) s.
Proof. unfold abind. now destruct (m s) as [[a|e|] s']. Qed.

Lemma abind_ss_item {B} key k (f : JSON -> Script B) s d x :
  session s !! key = Some (SDict d) ->
  d !! k = Some x ->
  abind (ss_item key k) f s = f x s.
Proof.
  intros Hs Hd. unfold ss_item. rewrite abind_assoc, (abind_ss_get _ _ _ _ Hs).
  cbn [sval_item]. unfold item. rewrite Hd. apply abind_areturn.
Qed.

Lemma abind_of_res_ok {A B} (a : A) (k : A -> Script B) s : abind (of_res (inr a)) k s = k a s.
Proof. reflexivity. Qed.

Lemma abind_of_res_raise {A B} e (k : A -> Script B) s :
  abind (of_res (inl e)) k s = (Raised e, s).
Proof. reflexivity. Qed.

(** ** Pieces that only write on the screen *)

Lemma quiet_areturn {A} (a : A) : quiet (areturn a).
Proof. intros s. now split. Qed.

Lemma quiet_araise {A} e : quiet (@araise A e).
Proof. intros s. now split. Qed.

Lemma quiet_of_res {A} (r : Res A) : quiet (of_res r).
Proof. destruct r; [apply quiet_araise | apply quiet_areturn]. Qed.

Lemma quiet_emit o : quiet (emit o).
Proof. intros s. now split. Qed.

Lemma quiet_ss_get key : quiet (ss_get key).
Proof. intros s. unfold ss_get. now destruct (session s !! key). Qed.

Lemma quiet_abind {A B} (m : Script A) (k : A -> Script B) :
  quiet m -> (forall a, quiet (k a)) -> quiet (abind m k).
Proof.
  intros Hm Hk s. unfold abind. destruct (Hm s) as [H1 H2].
  destruct (m s) as [[a|e|] s'] eqn:E; cbn [snd] in *; [|now split|now split].
  destruct (Hk a s') as [H3 H4]. split; congruence.
Qed.

Lemma quiet_item d key : quiet (item d key).
Proof. unfold item. destruct (d !! key); [apply quiet_areturn | apply quiet_araise]. Qed.

Lemma quiet_ss_item key k : quiet (ss_item key k).
Proof.
  apply quiet_abind; [apply quiet_ss_get|]. intros v. unfold sval_item.
  destruct v; try apply quiet_araise. apply quiet_item.
Qed.

Ltac quiet_tac :=
  repeat first
    [ apply quiet_areturn | apply quiet_araise | apply quiet_of_res | apply quiet_emit
    | apply quiet_ss_get | apply quiet_ss_item | apply quiet_item
    | apply quiet_abind; [|intros ?]
    | match goal with
      | |- quiet (if ?b then _ else _) => destruct b
      | |- quiet (let _ := _ in _) => cbv zeta
      end ].

(** ** Nothing leaves the screen *)







(** ** Pieces that do not read the key [page] *)

Lemma hide_eq s s' :
  hide s = hide s' ->
  delete "page" (session s) = delete "page" (session s')
  /\ calls s = calls s' /\ screen s = screen s'.
Proof. unfold hide. intros H. now inversion H. Qed.

Lemma hide_lookup s s' key :
  hide s = hide s' -> key <> "page" -> session s !! key = session s' !! key.
Proof.
  intros H Hk. apply hide_eq in H as (H & _ & _).
  apply (f_equal (fun m => m !! key)) in H.
  now rewrite !lookup_delete_ne in H by congruence.
Qed.

Lemma hide_insert s s' key v :
  hide s = hide s' ->
  hide {| session := <[ key := v ]> (session s); calls := calls s; screen := screen s |}
  = hide {| session := <[ key := v ]> (session s'); calls := calls s';
            screen := screen s' |}.
Proof.
  intros H. pose proof (hide_eq _ _ H) as (Hd & Hc & Hs).
  unfold hide. cbn [session calls screen]. rewrite Hc, Hs. f_equal.
  apply map_eq. intros k.
  destruct (decide (k = "page")) as [->|Hk].
  - now rewrite !lookup_delete_eq.
  - rewrite !lookup_delete_ne by congruence.
    destruct (decide (key = k)) as [->|Hne].
    + now rewrite !lookup_insert_eq.
    + rewrite !lookup_insert_ne by exact Hne. now apply hide_lookup.
Qed.

Lemma blind_areturn {A} (a : A) : blind (areturn a).
Proof. intros s s' H. now split. Qed.

Lemma blind_araise {A} e : blind (@araise A e).
Proof. intros s s' H. now split. Qed.

Lemma blind_st_rerun {A} : blind (@st_rerun A).
Proof. intros s s' H. now split. Qed.

Lemma blind_of_res {A} (r : Res A) : blind (of_res r).
Proof. destruct r; [apply blind_araise | apply blind_areturn]. Qed.

Lemma blind_emit o : blind (emit o).
Proof.
  intros s s' H. split; [reflexivity|]. apply hide_eq in H as (Hd & Hc & Hs).
  unfold emit, hide. cbn [snd session calls screen]. now rewrite Hd, Hc, Hs.
Qed.

Lemma blind_ss_get key : key <> "page" -> blind (ss_get key).
Proof.
  intros Hk s s' H. unfold ss_get. rewrite (hide_lookup s s' key H Hk).
  now destruct (session s' !! key).
Qed.

Lemma blind_ss_has key : key <> "page" -> blind (ss_has key).
Proof.
  intros Hk s s' H. unfold ss_has. rewrite (hide_lookup s s' key H Hk). now split.
Qed.

Lemma blind_ss_set key v : blind (ss_set key v).
Proof. intros s s' H. split; [reflexivity|]. now apply hide_insert. Qed.

Lemma blind_http {A} (m : Http.M A) : blind (http m).
Proof.
  intros s s' H. apply hide_eq in H as (Hd & Hc & Hs). unfold http. rewrite Hc.
  destruct (m _) as [r w]. split; [reflexivity|].
  unfold hide. cbn [snd session calls screen]. now rewrite Hd, Hs.
Qed.

Lemma blind_abind {A B} (m : Script A) (k : A -> Script B) :
  blind m -> (forall a, blind (k a)) -> blind (abind m k).
Proof.
  intros Hm Hk s s' H. unfold abind. destruct (Hm s s' H) as [H1 H2].
  destruct (m s) as [[a|e|] s1], (m s') as [[a'|e'|] s1']; cbn [fst snd] in *;
    try discriminate; try (now split).
  - injection H1 as <-. now apply Hk.
  - injection H1 as <-. now split.
Qed.

Lemma blind_atry {A} (m : Script A) (h : PyExc -> Script A) :
  blind m -> (forall e, blind (h e)) -> blind (atry m h).
Proof.
  intros Hm Hh s s' H. unfold atry. destruct (Hm s s' H) as [H1 H2].
  destruct (m s) as [[a|e|] s1], (m s') as [[a'|e'|] s1']; cbn [fst snd] in *;
    try discriminate; try (now split).
  injection H1 as <-. now apply Hh.
Qed.

Lemma blind_item d key : blind (item d key).
Proof. unfold item. destruct (d !! key); [apply blind_areturn | apply blind_araise]. Qed.

Lemma blind_as_api v method : blind (as_api v method).
Proof. destruct v; try apply blind_araise. apply blind_areturn. Qed.

Lemma blind_ss_item key k : key <> "page" -> blind (ss_item key k).
Proof.
  intros Hk. apply blind_abind; [now apply blind_ss_get|]. intros v. unfold sval_item.
  destruct v; try apply blind_araise. apply blind_item.
Qed.

Lemma blind_init_key key v : key <> "page" -> blind (init_key key v).
Proof.
  intros Hk. apply blind_abind; [now apply blind_ss_has|].
  intros []; [apply blind_areturn | apply blind_ss_set].
Qed.

Ltac blind_step :=
  lazymatch goal with
  | |- blind (abind _ _) => apply blind_abind; [|intros ?]
  | |- blind (atry _ _) => apply blind_atry; [|intros ?]
  | |- blind (areturn _) => apply blind_areturn
  | |- blind (araise _) => apply blind_araise
  | |- blind st_rerun => apply blind_st_rerun
  | |- blind (of_res _) => apply blind_of_res
  | |- blind (emit _) => apply blind_emit
  | |- blind (ss_set _ _) => apply blind_ss_set
  | |- blind (http _) => apply blind_http
  | |- blind (item _ _) => apply blind_item
  | |- blind (as_api _ _) => apply blind_as_api
  | |- blind (ss_get _) => apply blind_ss_get; discriminate
  | |- blind (ss_item _ _) => apply blind_ss_item; discriminate
  | |- blind (init_key _ _) => apply blind_init_key; discriminate
  | |- blind (if ?b then _ else _) => destruct b
  | |- blind (match ?v with _ => _ end) => destruct v
  | |- blind (let _ := _ in _) => cbv zeta
  end.

Ltac blind_tac := repeat blind_step.

Section PageProps.

Variable transport : Request -> Res Response.
Variable str_exc : PyExc -> string.
Variable str_other : JSON -> string.
Variable isoformat_date : string -> option string.

Lemma http_test_connection api s :
  http (test_connection transport str_exc api) s
  = (Done (connection str_exc (transport (status_request api))),
     {| session := session s; calls := calls s ++ [status_request api];
        screen := screen s |}).
Proof.
  rewrite (http_run _ s _ _ (Props.test_connection_run transport str_exc api _)).
  cbn [after sent Http.page map]. now rewrite app_nil_r.
Qed.

Lemma http_get_products api per_page page s :
  http (get_products transport str_exc api per_page page) s
  = (Done (listing str_exc (transport (products_request api per_page page))),
     {| session := session s; calls := calls s ++ [products_request api per_page page];
        screen := screen s |}).
Proof.
  rewrite (http_run _ s _ _ (Props.get_products_run transport str_exc api _ _ _)).
  cbn [after sent Http.page map]. now rewrite app_nil_r.
Qed.

Lemma http_get_subscriptions api per_page page s :
  http (get_subscriptions transport str_exc api per_page page) s
  = (Done (listing str_exc (transport (subscriptions_request api per_page page))),
     {| session := session s;
        calls := calls s ++ [subscriptions_request api per_page page];
        screen := screen s |}).
Proof.
  rewrite (http_run _ s _ _ (Props.get_subscriptions_run transport str_exc api _ _ _)).
  cbn [after sent Http.page map]. now rewrite app_nil_r.
Qed.

Lemma connection_answered out :
  answered out = true ->
  connection str_exc out
  = {[ "success" := JBool true; "message" := JStr "Connection successful!" ]}.
Proof.
  destruct out as [e|r]; [discriminate|]. cbn [answered connection].
  unfold raise_for_status. now destruct ((400 <=? status_code r) && (status_code r <? 600)).
Qed.

Lemma connection_failed out :
  answered out = false ->
  connection str_exc out
  = {[ "success" := JBool false; "error" := JStr (failure_text str_exc out) ]}.
Proof.
  destruct out as [e|r]; [reflexivity|]. cbn [answered connection failure_text].
  unfold raise_for_status.
  now destruct ((400 <=? status_code r) && (status_code r <? 600)).
Qed.

(** ** [sidebar_config] *)

Lemma sidebar_config_missing i s c :
  in_submitted i = true ->
  in_base_url i = EmptyString \/ in_consumer_key i = EmptyString
    \/ in_consumer_secret i = EmptyString ->
  session s !! "api_configured" = Some c ->
  sidebar_config transport str_exc str_other i s
  = (Done (in_navigate i),
     {| session := session s; calls := calls s;
        screen := screen s ++ sidebar_top
                  ++ [el (st_error "Please fill in all required fields")]
                  ++ sidebar_status (sval_truthy c) |}).
Proof.
  intros Hsub Hempty Hc. unfold sidebar_config. rewrite Hsub.
  assert (Hf : str_truthy (in_base_url i) && str_truthy (in_consumer_key i)
               && str_truthy (in_consumer_secret i) = false).
  { destruct Hempty as [-> | [-> | ->]]; cbn [str_truthy];
      rewrite ?andb_false_r; reflexivity. }
  rewrite Hf. app_run.
  destruct (sval_truthy c); app_run; rewrite <- !app_assoc; reflexivity.
Qed.

(** X2. A submitted form with an empty field connects to nothing: the
    sidebar shows [Please fill in all required fields] and the status of
    the connection as it was, makes no HTTP call and leaves the session
    as it is. *)
Theorem X2_sidebar_missing_field i s c :
  in_submitted i = true ->
  in_base_url i = EmptyString \/ in_consumer_key i = EmptyString
    \/ in_consumer_secret i = EmptyString ->
  session s !! "api_configured" = Some c ->
  sidebar_config transport str_exc str_other i s
  = (Done (in_navigate i),
     {| session := session s; calls := calls s;
        screen := screen s ++ sidebar_top
                  ++ [el (st_error "Please fill in all required fields")]
                  ++ sidebar_status (sval_truthy c) |}).
Proof. intros. eapply sidebar_config_missing; eassumption. Qed.

Lemma sidebar_config_connect i s :
  in_submitted i = true ->
  in_base_url i <> EmptyString ->
  in_consumer_key i <> EmptyString ->
  in_consumer_secret i <> EmptyString ->
  let api := init (in_base_url i) (in_consumer_key i) (in_consumer_secret i) in
  let out := transport (status_request api) in
  sidebar_config transport str_exc str_other i s
  = (Done (in_navigate i),
     {| session := <[ "api_configured" := SBool (answered out) ]>
                     (<[ "wc_api" := SApi api ]> (session s));
        calls := calls s ++ [status_request api];
        screen := screen s ++ sidebar_top
                  ++ (if answered out
                      then [ el (st_success (cp 9989 ++ " Connected successfully!"));
                             sidebar_markdown
                               ("**Environment:** "
                                ++ (if in_use_live_keys i then cp 128308 ++ " Live"
                                    else cp 128993 ++ " Test")) ]
                      else [ el (st_error (cp 10060 ++ " Connection failed: "
                                           ++ failure_text str_exc out)) ])
                  ++ sidebar_status (answered out) |}).
Proof.
  intros Hsub Hb Hk Hs api out. unfold sidebar_config. rewrite Hsub.
  rewrite !Props.str_truthy_nonempty by assumption. cbn [andb]. fold api.
  unfold abind at 1 2 3 4 5 6 7. unfold emit at 1 2, ss_set at 1, ss_get at 1.
  cbn [session calls screen]. simpl_map. cbn [as_api areturn].
  rewrite http_test_connection. fold out. cbn [session calls screen].
  destruct (answered out) eqn:Hans.
  - rewrite (connection_answered _ Hans). app_run.
    rewrite <- !app_assoc. reflexivity.
  - rewrite (connection_failed _ Hans). app_run.
    rewrite <- !app_assoc. reflexivity.
Qed.

(** X3. A submitted form with its three fields filled in makes exactly
    one HTTP call, the GET of [system_status] of the new client, stores
    that client under [wc_api] and, under [api_configured], whether the
    server answered without a 4xx or 5xx status.  It never raises, and it
    touches no other key of the session: the product and subscription
    data loaded before stay where they are. *)
Theorem X3_sidebar_connect i s :
  in_submitted i = true ->
  in_base_url i <> EmptyString ->
  in_consumer_key i <> EmptyString ->
  in_consumer_secret i <> EmptyString ->
  let api := init (in_base_url i) (in_consumer_key i) (in_consumer_secret i) in
  let out := transport (status_request api) in
  sidebar_config transport str_exc str_other i s
  = (Done (in_navigate i),
     {| session := <[ "api_configured" := SBool (answered out) ]>
                     (<[ "wc_api" := SApi api ]> (session s));
        calls := calls s ++ [status_request api];
        screen := screen s ++ sidebar_top
                  ++ (if answered out
                      then [ el (st_success (cp 9989 ++ " Connected successfully!"));
                             sidebar_markdown
                               ("**Environment:** "
                                ++ (if in_use_live_keys i then cp 128308 ++ " Live"
                                    else cp 128993 ++ " Test")) ]
                      else [ el (st_error (cp 10060 ++ " Connection failed: "
                                           ++ failure_text str_exc out)) ])
                  ++ sidebar_status (answered out) |}).
Proof. intros. eapply sidebar_config_connect; eassumption. Qed.

(** ** [display_products] and [display_subscriptions] *)

Lemma product_details_quiet p : quiet (product_details str_other p).
Proof. unfold product_details. quiet_tac. Qed.

Lemma line_items_quiet items : quiet (line_items str_other items).
Proof. induction items as [|x items IH]; cbn [line_items]; quiet_tac. exact IH. Qed.

Lemma subscription_details_quiet p : quiet (subscription_details str_other p).
Proof. unfold subscription_details. quiet_tac. apply line_items_quiet. Qed.

Lemma show_products_quiet i : quiet (show_products str_other isoformat_date i).
Proof. unfold show_products. quiet_tac. Qed.

Lemma show_subscriptions_quiet i : quiet (show_subscriptions str_other isoformat_date i).
Proof. unfold show_subscriptions. quiet_tac. apply line_items_quiet. Qed.

Lemma pages_not_configured i s c :
  session s !! "api_configured" = Some c ->
  sval_truthy c = false ->
  display_products transport str_exc str_other isoformat_date i s
  = (Done tt, shown (shown s products_header) (st_warning not_configured))
  /\ display_subscriptions transport str_exc str_other isoformat_date i s
     = (Done tt, shown (shown s subscriptions_header) (st_warning not_configured))
  /\ display_api_testing transport str_exc str_other i s
     = (Done tt, shown (shown s api_testing_header) (st_warning not_configured))
  /\ display_dashboard transport str_exc i s
     = (Done tt,
        shown (shown s dashboard_header)
          (st_warning
             "Please configure your API credentials in the sidebar to view dashboard data.")).
Proof.
  intros Hc Hf.
  unfold display_products, display_subscriptions, display_api_testing, display_dashboard.
  repeat split; app_run; rewrite Hf; reflexivity.
Qed.

(** X4. Until a connection has succeeded, each of the four pages shows
    its header and a warning, and nothing else: it makes no HTTP call and
    leaves the session as it is, whatever the widgets say. *)
Theorem X4_pages_need_configuration i s c :
  session s !! "api_configured" = Some c ->
  sval_truthy c = false ->
  display_products transport str_exc str_other isoformat_date i s
  = (Done tt, shown (shown s products_header) (st_warning not_configured))
  /\ display_subscriptions transport str_exc str_other isoformat_date i s
     = (Done tt, shown (shown s subscriptions_header) (st_warning not_configured))
  /\ display_api_testing transport str_exc str_other i s
     = (Done tt, shown (shown s api_testing_header) (st_warning not_configured))
  /\ display_dashboard transport str_exc i s
     = (Done tt,
        shown (shown s dashboard_header)
          (st_warning
             "Please configure your API credentials in the sidebar to view dashboard data.")).
Proof. intros. eapply pages_not_configured; eassumption. Qed.

Lemma display_products_cached i s c d :
  session s !! "api_configured" = Some c ->
  sval_truthy c = true ->
  in_refresh_products i = false ->
  session s !! "products_data" = Some (SDict d) ->
  display_products transport str_exc str_other isoformat_date i s
  = show_products str_other isoformat_date i (shown s products_header).
Proof.
  intros Hc Ht Hr Hd. unfold display_products. rewrite Hr.
  rewrite abind_emit, (abind_ss_get _ _ _ c) by exact Hc. rewrite Ht. cbn [negb].
  rewrite abind_areturn, (abind_ss_get _ _ _ (SDict d)) by exact Hd.
  now rewrite abind_areturn.
Qed.

Lemma display_products_fetch i s c api :
  session s !! "api_configured" = Some c ->
  sval_truthy c = true ->
  in_refresh_products i = true \/ session s !! "products_data" = Some SNone ->
  session s !! "wc_api" = Some (SApi api) ->
  let rq := products_request api (in_per_page i) (in_page i) in
  display_products transport str_exc str_other isoformat_date i s
  = show_products str_other isoformat_date i
      (loaded (shown s products_header) "products_data" rq
         (listing str_exc (transport rq))).
Proof.
  intros Hc Ht Hcase Hapi rq. unfold display_products.
  rewrite abind_emit, (abind_ss_get _ _ _ c) by exact Hc. rewrite Ht. cbn [negb].
  assert (Hgo : forall s0,
    session s0 !! "products_data" = Some SNone ->
    session s0 !! "wc_api" = Some (SApi api) ->
    (cached <- ss_get "products_data" ;;
     match cached with
     | SNone =>
         v <- ss_get "wc_api" ;;
         api0 <- as_api v "get_products" ;;
         result <- http (get_products transport str_exc api0 (in_per_page i)
                           (in_page i)) ;;
         ss_set "products_data" (SDict result)
     | _ => areturn tt
     end ;;;
     show_products str_other isoformat_date i)%app s0
    = show_products str_other isoformat_date i
        (loaded s0 "products_data" rq (listing str_exc (transport rq)))).
  { intros s0 H1 H2.
    rewrite (abind_ss_get _ _ _ SNone) by exact H1.
    rewrite abind_assoc, (abind_ss_get _ _ _ (SApi api)) by exact H2.
    cbn [as_api]. rewrite abind_assoc, abind_areturn, abind_assoc.
    unfold abind at 1. rewrite http_get_products. fold rq. reflexivity. }
  destruct (in_refresh_products i) eqn:Hr.
  - rewrite abind_ss_set. rewrite Hgo; cbn [session]; simpl_map; try reflexivity.
    unfold loaded, shown. cbn [session calls screen]. now rewrite insert_insert_eq.
  - destruct Hcase as [Hcase|Hcase]; [discriminate|].
    rewrite abind_areturn. now rewrite Hgo.
Qed.

Lemma display_products_cached_quiet i s c d :
  session s !! "api_configured" = Some c ->
  sval_truthy c = true ->
  in_refresh_products i = false ->
  session s !! "products_data" = Some (SDict d) ->
  calls (snd (display_products transport str_exc str_other isoformat_date i s)) = calls s
  /\ session (snd (display_products transport str_exc str_other isoformat_date i s))
     = session s.
Proof.
  intros Hc Ht Hr Hd. rewrite (display_products_cached i s c d Hc Ht Hr Hd).
  destruct (show_products_quiet i (shown s products_header)) as [H1 H2].
  now rewrite H1, H2.
Qed.

(** X5. The Products page keeps what it has loaded: while
    [products_data] holds a result and Refresh is not pressed, the page
    makes no HTTP call and does not change the session, whatever page
    number and page size are selected. *)
Theorem X5_products_are_cached i s c d :
  session s !! "api_configured" = Some c ->
  sval_truthy c = true ->
  in_refresh_products i = false ->
  session s !! "products_data" = Some (SDict d) ->
  calls (snd (display_products transport str_exc str_other isoformat_date i s)) = calls s
  /\ session (snd (display_products transport str_exc str_other isoformat_date i s))
     = session s.
Proof.
  intros Hc Ht Hr Hd. now apply (display_products_cached_quiet i s c d).
Qed.

(** X6. When Refresh is pressed, or nothing is loaded yet, the Products
    page makes exactly one HTTP call, [get_products] with the page size
    and the page number of the widgets, and stores what it returns under
    [products_data], success or failure alike. *)
Theorem X6_products_are_fetched_once i s c api :
  session s !! "api_configured" = Some c ->
  sval_truthy c = true ->
  in_refresh_products i = true \/ session s !! "products_data" = Some SNone ->
  session s !! "wc_api" = Some (SApi api) ->
  let rq := products_request api (in_per_page i) (in_page i) in
  let s' := snd (display_products transport str_exc str_other isoformat_date i s) in
  calls s' = (calls s ++ [rq])%list
  /\ session s' = <[ "products_data" := SDict (listing str_exc (transport rq)) ]> (session s)
  /\ (success_shape (listing str_exc (transport rq))
      \/ failure_shape (listing str_exc (transport rq))).
Proof.
  intros Hc Ht Hcase Hapi rq s'. subst s'.
  rewrite (display_products_fetch i s c api Hc Ht Hcase Hapi). fold rq.
  destruct (show_products_quiet i
              (loaded (shown s products_header) "products_data" rq
                 (listing str_exc (transport rq)))) as [H1 H2].
  rewrite H1, H2. repeat split. apply Props.listing_shape.
Qed.

Lemma show_products_failure i s msg :
  session s !! "products_data"
  = Some (SDict {[ "success" := JBool false; "error" := JStr msg ]}) ->
  show_products str_other isoformat_date i s
  = (Done tt, shown s (el (st_error ("Error loading products: " ++ msg)))).
Proof.
  intros Hs. unfold show_products.
  rewrite (abind_ss_item _ _ _ _ _ (JBool false) Hs) by reflexivity. cbn [truthy].
  rewrite (abind_ss_item _ _ _ _ _ (JStr msg) Hs) by reflexivity. reflexivity.
Qed.

(** X7. A failed load stays on the page.  When the request fails (the
    transport raises, or the status is 4xx or 5xx), the Products page
    shows [Error loading products:] with the text of the failure and
    stores the failure; every later run without Refresh shows the same
    error again and makes no HTTP call, whatever the server would answer
    by then. *)
Theorem X7_products_failure_sticks i i' s c api e :
  session s !! "api_configured" = Some c ->
  sval_truthy c = true ->
  in_refresh_products i = true \/ session s !! "products_data" = Some SNone ->
  session s !! "wc_api" = Some (SApi api) ->
  expected_failure (transport (products_request api (in_per_page i) (in_page i))) e ->
  in_refresh_products i' = false ->
  let rq := products_request api (in_per_page i) (in_page i) in
  let message := el (st_error ("Error loading products: " ++ str_exc e)) in
  let s1 := loaded (shown s products_header) "products_data" rq (failure str_exc e) in
  display_products transport str_exc str_other isoformat_date i s
  = (Done tt, shown s1 message)
  /\ forall transport',
       display_products transport' str_exc str_other isoformat_date i' (shown s1 message)
       = (Done tt, shown (shown (shown s1 message) products_header) message).
Proof.
  intros Hc Ht Hcase Hapi He Hr' rq message s1.
  assert (Hl : listing str_exc (transport rq) = failure str_exc e)
    by (apply Props.listing_expected_failure; exact He).
  split.
  - rewrite (display_products_fetch i s c api Hc Ht Hcase Hapi). fold rq. rewrite Hl.
    apply show_products_failure. subst s1. cbn [loaded session]. now simpl_map.
  - intros transport'. subst s1. unfold display_products. rewrite Hr'.
    rewrite abind_emit, (abind_ss_get _ _ _ c)
      by (cbn [shown loaded session]; now simpl_map).
    rewrite Ht. cbn [negb]. rewrite abind_areturn.
    rewrite (abind_ss_get _ _ _ (SDict (failure str_exc e)))
      by (cbn [shown loaded session]; now simpl_map).
    rewrite abind_areturn. apply show_products_failure.
    cbn [shown loaded session]. now simpl_map.
Qed.


Lemma show_products_metrics i s data tp ti n :
  session s !! "products_data" = Some (SDict (success data tp ti)) ->
  len data = inr (Z.of_nat n) ->
  show_products str_other isoformat_date i s
  = (if truthy data then
       items <- of_res (iter data) ;;
       products_df <- of_res (Views.rows (Views.product_row str_other isoformat_date)
                                items) ;;
       emit (st_dataframe products_df) ;;;
       if truthy (selectbox items (in_selected_product i))
       then product_details str_other (selectbox items (in_selected_product i))
       else areturn tt
     else emit (st_info "No products found."))%app
      {| session := session s; calls := calls s;
         screen := screen s ++ products_metrics str_other i data tp ti n |}.
Proof.
  intros Hs Hn. unfold show_products.
  rewrite (abind_ss_item _ _ _ _ _ (JBool true) Hs) by reflexivity. cbn [truthy].
  rewrite (abind_ss_item _ _ _ _ _ data Hs) by reflexivity.
  rewrite (abind_ss_item _ _ _ _ _ ti Hs) by reflexivity.
  rewrite (abind_ss_item _ _ _ _ _ tp Hs) by reflexivity.
  rewrite !abind_emit, Hn, abind_of_res_ok, abind_emit.
  unfold shown, products_metrics. cbn [session calls screen].
  rewrite <- !app_assoc. reflexivity.
Qed.

(** X8. A loaded list without products is shown as the three metrics,
    with 0 products showing, and the note [No products found.]; there is
    no table, and nothing is called or stored. *)
Theorem X8_no_products_found i s c tp ti :
  session s !! "api_configured" = Some c ->
  sval_truthy c = true ->
  in_refresh_products i = false ->
  session s !! "products_data" = Some (SDict (success (JArr []) tp ti)) ->
  display_products transport str_exc str_other isoformat_date i s
  = (Done tt,
     {| session := session s; calls := calls s;
        screen := screen s ++ [products_header]
                  ++ products_metrics str_other i (JArr []) tp ti 0
                  ++ [st_info "No products found."] |}).
Proof.
  intros Hc Ht Hr Hd. rewrite (display_products_cached i s c _ Hc Ht Hr Hd).
  rewrite (show_products_metrics i _ (JArr []) tp ti 0) by (exact Hd || reflexivity).
  cbn [truthy]. unfold emit, shown. cbn [session calls screen].
  rewrite <- !app_assoc. reflexivity.
Qed.


(** X10. One product without a row takes the page down.  When a product
    of the loaded list lacks what its row needs, the page ends with the
    exception of that row, raised for the first such product: the metrics
    are on the screen, but no table and no product. *)
Theorem X10_products_table_raises i s c before p after rs e tp ti :
  session s !! "api_configured" = Some c ->
  sval_truthy c = true ->
  in_refresh_products i = false ->
  session s !! "products_data"
  = Some (SDict (success (JArr (before ++ p :: after)) tp ti)) ->
  Forall2 (fun q r => Views.product_row str_other isoformat_date q = inr r) before rs ->
  Views.product_row str_other isoformat_date p = inl e ->
  display_products transport str_exc str_other isoformat_date i s
  = (Raised e,
     {| session := session s; calls := calls s;
        screen := screen s ++ [products_header]
                  ++ products_metrics str_other i (JArr (before ++ p :: after)) tp ti
                       (length (before ++ p :: after)) |}).
Proof.
  intros Hc Ht Hr Hd Hrows Hp. rewrite (display_products_cached i s c _ Hc Ht Hr Hd).
  rewrite (show_products_metrics i _ (JArr (before ++ p :: after)) tp ti
             (length (before ++ p :: after))) by (exact Hd || reflexivity).
  assert (Htr : truthy (JArr (before ++ p :: after)) = true) by (now destruct before).
  rewrite Htr. cbn [iter]. rewrite abind_of_res_ok.
  rewrite (Props.rows_raise _ _ _ _ _ _ Hrows Hp), abind_of_res_raise.
  unfold shown. cbn [session calls screen]. now rewrite <- !app_assoc.
Qed.

Lemma display_subscriptions_cached i s c v :
  session s !! "api_configured" = Some c ->
  sval_truthy c = true ->
  in_refresh_subscriptions i = false ->
  session s !! "subscriptions_data" = Some v ->
  is_none v = false ->
  display_subscriptions transport str_exc str_other isoformat_date i s
  = show_subscriptions str_other isoformat_date i (shown s subscriptions_header).
Proof.
  intros Hc Ht Hr Hd Hv. unfold display_subscriptions. rewrite Hr.
  rewrite abind_emit, (abind_ss_get _ _ _ c) by exact Hc. rewrite Ht. cbn [negb].
  rewrite abind_areturn, (abind_ss_get _ _ _ v) by exact Hd.
  destruct v; try discriminate Hv; now rewrite abind_areturn.
Qed.

Lemma display_subscriptions_fetch i s c api :
  session s !! "api_configured" = Some c ->
  sval_truthy c = true ->
  in_refresh_subscriptions i = true \/ session s !! "subscriptions_data" = Some SNone ->
  session s !! "wc_api" = Some (SApi api) ->
  let rq := subscriptions_request api (in_sub_per_page i) (in_sub_page i) in
  display_subscriptions transport str_exc str_other isoformat_date i s
  = show_subscriptions str_other isoformat_date i
      (loaded (shown s subscriptions_header) "subscriptions_data" rq
         (listing str_exc (transport rq))).
Proof.
  intros Hc Ht Hcase Hapi rq. unfold display_subscriptions.
  rewrite abind_emit, (abind_ss_get _ _ _ c) by exact Hc. rewrite Ht. cbn [negb].
  assert (Hgo : forall s0,
    session s0 !! "subscriptions_data" = Some SNone ->
    session s0 !! "wc_api" = Some (SApi api) ->
    (cached <- ss_get "subscriptions_data" ;;
     match cached with
     | SNone =>
         v <- ss_get "wc_api" ;;
         api0 <- as_api v "get_subscriptions" ;;
         result <- http (get_subscriptions transport str_exc api0 (in_sub_per_page i)
                           (in_sub_page i)) ;;
         ss_set "subscriptions_data" (SDict result)
     | _ => areturn tt
     end ;;;
     show_subscriptions str_other isoformat_date i)%app s0
    = show_subscriptions str_other isoformat_date i
        (loaded s0 "subscriptions_data" rq (listing str_exc (transport rq)))).
  { intros s0 H1 H2.
    rewrite (abind_ss_get _ _ _ SNone) by exact H1.
    rewrite abind_assoc, (abind_ss_get _ _ _ (SApi api)) by exact H2.
    cbn [as_api]. rewrite abind_assoc, abind_areturn, abind_assoc.
    unfold abind at 1. rewrite http_get_subscriptions. fold rq. reflexivity. }
  destruct (in_refresh_subscriptions i) eqn:Hr.
  - rewrite abind_ss_set. rewrite Hgo; cbn [session]; simpl_map; try reflexivity.
    unfold loaded, shown. cbn [session calls screen]. now rewrite insert_insert_eq.
  - destruct Hcase as [Hcase|Hcase]; [discriminate|].
    rewrite abind_areturn. now rewrite Hgo.
Qed.

(** X11. The Subscriptions page loads the way the Products page does.
    While [subscriptions_data] holds a result and Refresh is not pressed
    it makes no HTTP call and changes nothing in the session; when
    Refresh is pressed or nothing is loaded it makes exactly one call,
    [get_subscriptions] with the page size and number of its own
    widgets, and stores the result under [subscriptions_data].  In both
    cases [products_data] is left as it is. *)
Theorem X11_subscriptions_loading i s c api v :
  session s !! "api_configured" = Some c ->
  sval_truthy c = true ->
  session s !! "wc_api" = Some (SApi api) ->
  session s !! "subscriptions_data" = Some v ->
  let rq := subscriptions_request api (in_sub_per_page i) (in_sub_page i) in
  let s' := snd (display_subscriptions transport str_exc str_other isoformat_date i s) in
  (if in_refresh_subscriptions i || is_none v
   then calls s' = (calls s ++ [rq])%list
        /\ session s'
           = <[ "subscriptions_data" := SDict (listing str_exc (transport rq)) ]>
               (session s)
   else calls s' = calls s /\ session s' = session s)
  /\ session s' !! "products_data" = session s !! "products_data".
Proof.
  intros Hc Ht Hapi Hv rq s'. subst s'.
  assert (Hload : in_refresh_subscriptions i = true \/ v = SNone ->
    calls (snd (display_subscriptions transport str_exc str_other isoformat_date i s))
    = (calls s ++ [rq])%list
    /\ session (snd (display_subscriptions transport str_exc str_other isoformat_date i s))
       = <[ "subscriptions_data" := SDict (listing str_exc (transport rq)) ]>
           (session s)).
  { intros Hcase.
    rewrite (display_subscriptions_fetch i s c api Hc Ht) by
      first [exact Hapi | destruct Hcase as [?|E]; [now left | right; now rewrite <- E]].
    fold rq.
    match goal with
    | |- context [show_subscriptions _ _ _ ?s0] =>
        destruct (show_subscriptions_quiet i s0) as [H1 H2]
    end.
    now rewrite H1, H2. }
  destruct (in_refresh_subscriptions i) eqn:Hr; cbn [orb].
  - destruct (Hload (or_introl eq_refl)) as [H1 H2]. rewrite H1, H2.
    repeat split. now simpl_map.
  - destruct (is_none v) eqn:En.
    + assert (v = SNone) as E by (destruct v; try discriminate En; reflexivity).
      destruct (Hload (or_intror E)) as [H1 H2]. rewrite H1, H2.
      repeat split. now simpl_map.
    + rewrite (display_subscriptions_cached i s c v Hc Ht Hr Hv En).
      destruct (show_subscriptions_quiet i (shown s subscriptions_header)) as [H1 H2].
      now rewrite H1, H2.
Qed.

(** ** [display_dashboard] *)

Lemma listing_total {B} out (k : JSON -> Script B) s :
  (ok <- item (listing str_exc out) "success" ;;
   total_items <- (if truthy ok then item (listing str_exc out) "total_items"
                   else areturn (JStr "Error")) ;;
   k total_items)%app s
  = k (total (listing str_exc out)) s.
Proof.
  destruct (Props.listing_shape str_exc out) as [(data & tp & ti & ->) | (msg & ->)];
    reflexivity.
Qed.

Lemma abind_done {A B} (m : Script A) (k : A -> Script B) s a s' :
  m s = (Done a, s') -> abind m k s = k a s'.
Proof. intros H. unfold abind. now rewrite H. Qed.

Lemma display_dashboard_run i s c api :
  session s !! "api_configured" = Some c ->
  sval_truthy c = true ->
  session s !! "wc_api" = Some (SApi api) ->
  let products := listing str_exc (transport (products_request api 1 1)) in
  let subscriptions := listing str_exc (transport (subscriptions_request api 1 1)) in
  display_dashboard transport str_exc i s
  = (match quick_action i with Some _ => Rerun | None => Done tt end,
     {| session := match quick_action i with
                   | Some name => <[ "page" := SStr name ]> (session s)
                   | None => session s
                   end;
        calls := calls s ++ [products_request api 1 1; subscriptions_request api 1 1];
        screen := screen s ++ dashboard_metrics i products subscriptions true |}).
Proof.
  intros Hc Ht Hapi products subscriptions. unfold display_dashboard.
  rewrite abind_emit, (abind_ss_get _ _ _ c) by exact Hc. rewrite Ht. cbn [negb].
  rewrite (abind_ss_get _ _ _ (SApi api)) by exact Hapi. cbn [as_api].
  rewrite abind_areturn. unfold abind at 1. rewrite http_get_products.
  fold products. cbn [session calls screen]. unfold products at 1 2.
  rewrite listing_total. fold products.
  rewrite (abind_ss_get _ _ _ (SApi api)) by exact Hapi. cbn [as_api].
  rewrite abind_areturn. unfold abind at 1. rewrite http_get_subscriptions.
  fold subscriptions. cbn [session calls screen]. unfold subscriptions at 1 2.
  rewrite listing_total. fold subscriptions.
  rewrite !abind_emit, (abind_ss_get _ _ _ c) by exact Hc. rewrite Ht.
  rewrite !abind_emit.
  unfold quick_action, shown, dashboard_metrics, dashboard_header.
  cbn [session calls screen].
  destruct (in_view_products i), (in_view_subscriptions i), (in_test_api i);
    unfold abind, ss_set, st_rerun, areturn; cbn [session calls screen];
    rewrite <- !app_assoc; reflexivity.
Qed.

(** X12. The dashboard loads its two totals anew in every run: when
    connected it makes exactly two HTTP calls, [get_products] and
    [get_subscriptions] for one item of page 1, whatever the pages have
    loaded before, and shows the total of each or [Error]; it never
    raises.  It ends the run with [st.rerun()] exactly when a quick
    action is pressed, after storing the name of the page under [page];
    apart from that key it leaves the session as it is. *)
Theorem X12_dashboard_totals i s c api :
  session s !! "api_configured" = Some c ->
  sval_truthy c = true ->
  session s !! "wc_api" = Some (SApi api) ->
  let products := listing str_exc (transport (products_request api 1 1)) in
  let subscriptions := listing str_exc (transport (subscriptions_request api 1 1)) in
  display_dashboard transport str_exc i s
  = (match quick_action i with Some _ => Rerun | None => Done tt end,
     {| session := match quick_action i with
                   | Some name => <[ "page" := SStr name ]> (session s)
                   | None => session s
                   end;
        calls := calls s ++ [products_request api 1 1; subscriptions_request api 1 1];
        screen := screen s ++ dashboard_metrics i products subscriptions true |}).
Proof. intros. eapply display_dashboard_run; eassumption. Qed.

(** ** [display_api_testing] *)



(** ** [main] *)

Lemma sidebar_config_idle i s c :
  in_submitted i = false ->
  session s !! "api_configured" = Some c ->
  sidebar_config transport str_exc str_other i s
  = (Done (in_navigate i),
     {| session := session s; calls := calls s;
        screen := screen s ++ sidebar_top ++ sidebar_status (sval_truthy c) |}).
Proof.
  intros Hsub Hc. unfold sidebar_config. rewrite Hsub. app_run.
  destruct (sval_truthy c); app_run; rewrite <- !app_assoc; reflexivity.
Qed.

(** [main] is the sidebar, then the selected page, then the footer. *)
Lemma main_run i s nav s1 :
  sidebar_config transport str_exc str_other i
    {| session := session s ∪ defaults; calls := calls s;
       screen := screen s ++ page_top |}
  = (Done nav, s1) ->
  main transport str_exc str_other isoformat_date i s
  = match display transport str_exc str_other isoformat_date i nav s1 with
    | (Done _, s2) =>
        (Done tt, {| session := session s2; calls := calls s2;
                     screen := screen s2 ++ page_bottom |})
    | out => out
    end.
Proof.
  intros Hside. unfold main.
  rewrite (abind_done _ _ _ _ _ (init_session_state_run s)), abind_emit.
  unfold shown. cbn [session calls screen]. fold page_top.
  rewrite (abind_done _ _ _ _ _ Hside).
  unfold abind at 1. unfold display.
  destruct nav;
    match goal with
    | |- context [match ?m s1 with _ => _ end] => destruct (m s1) as [[[]|e|] s2]
    end; try reflexivity;
    unfold abind, emit, page_bottom; cbn [session calls screen];
    rewrite <- !app_assoc; reflexivity.
Qed.

Lemma pages_locked i s c nav :
  session s !! "api_configured" = Some c ->
  sval_truthy c = false ->
  display transport str_exc str_other isoformat_date i nav s
  = (Done tt, {| session := session s; calls := calls s;
                 screen := screen s ++ locked nav |}).
Proof.
  intros Hc Hf.
  destruct (pages_not_configured i s c Hc Hf) as (H1 & H2 & H3 & H4).
  destruct nav; cbn [display locked]; rewrite ?H1, ?H2, ?H3, ?H4;
    unfold shown; cbn [session calls screen]; rewrite <- !app_assoc; reflexivity.
Qed.

(** X15. A new session calls nothing before the form is submitted.  The
    first run of a session, on whatever page, with the form not
    submitted, makes no HTTP call and ends normally; it leaves the four
    defaults in the session and shows the top, the sidebar with [Not
    Connected], the header and the warning of the page, and the footer. *)
Theorem X15_fresh_session_is_silent i :
  in_submitted i = false ->
  main transport str_exc str_other isoformat_date i fresh
  = (Done tt,
     {| session := defaults; calls := [];
        screen := page_top ++ sidebar_top ++ sidebar_status false
                  ++ locked (in_navigate i) ++ page_bottom |}).
Proof.
  intros Hsub.
  rewrite (main_run i fresh (in_navigate i)
             {| session := defaults; calls := [];
                screen := page_top ++ sidebar_top ++ sidebar_status false |}).
  - rewrite (pages_locked i _ (SBool false)) by reflexivity.
    cbn [session calls screen]. rewrite <- !app_assoc. reflexivity.
  - rewrite (sidebar_config_idle i _ (SBool false) Hsub) by reflexivity.
    cbn [session calls screen fresh]. rewrite (left_id_L ∅ (∪)). reflexivity.
Qed.

Lemma main_effects i s nav s1 :
  sidebar_config transport str_exc str_other i
    {| session := session s ∪ defaults; calls := calls s;
       screen := screen s ++ page_top |}
  = (Done nav, s1) ->
  calls (snd (main transport str_exc str_other isoformat_date i s))
  = calls (snd (display transport str_exc str_other isoformat_date i nav s1))
  /\ session (snd (main transport str_exc str_other isoformat_date i s))
     = session (snd (display transport str_exc str_other isoformat_date i nav s1)).
Proof.
  intros Hside. rewrite (main_run i s nav s1 Hside).
  now destruct (display transport str_exc str_other isoformat_date i nav s1) as [[[]|e|] s2].
Qed.

(** X16. Connecting on the Products page loads the products in the same
    run.  From a new session, a submitted form with its fields filled in
    and the Products page selected makes the call of [system_status]
    and then, only when the server answered it without a 4xx or 5xx
    status, the one call of [get_products]; after the run the session
    holds the client, whether it is connected, and what was loaded. *)
Theorem X16_connect_then_load_products i :
  in_submitted i = true ->
  in_base_url i <> EmptyString ->
  in_consumer_key i <> EmptyString ->
  in_consumer_secret i <> EmptyString ->
  in_navigate i = NavProducts ->
  let api := init (in_base_url i) (in_consumer_key i) (in_consumer_secret i) in
  let connected := answered (transport (status_request api)) in
  let rq := products_request api (in_per_page i) (in_page i) in
  let s' := snd (main transport str_exc str_other isoformat_date i fresh) in
  calls s' = status_request api :: (if connected then [rq] else [])
  /\ session s'
     = {[ "api_configured" := SBool connected; "wc_api" := SApi api;
          "products_data" := if connected then SDict (listing str_exc (transport rq))
                             else SNone;
          "subscriptions_data" := SNone ]}.
Proof.
  intros Hsub Hb Hk Hs Hnav api connected rq s'. subst s'.
  pose proof (sidebar_config_connect i
                {| session := session fresh ∪ defaults; calls := calls fresh;
                   screen := screen fresh ++ page_top |} Hsub Hb Hk Hs) as Hside.
  cbv zeta in Hside. fold api in Hside. fold connected in Hside.
  destruct (main_effects i fresh _ _ Hside) as [-> ->]. rewrite Hnav. cbn [display].
  cbn [session calls screen fresh]. rewrite (left_id_L ∅ (∪)).
  destruct connected eqn:Hcon.
  - match goal with
    | |- context [display_products _ _ _ _ _ ?s0] =>
        rewrite (display_products_fetch i s0 (SBool true) api)
          by first [reflexivity | now right]
    end.
    fold rq.
    match goal with
    | |- context [show_products _ _ _ ?s0] =>
        destruct (show_products_quiet i s0) as [H1 H2]
    end.
    rewrite H1, H2. cbn [loaded shown session calls]. split; [reflexivity|].
    unfold defaults. generalize (SApi api). try generalize (SDict (listing str_exc (transport rq))).
    intros. reflexivity.
  - match goal with
    | |- context [display_products _ _ _ _ _ ?s0] =>
        destruct (pages_not_configured i s0 (SBool false)) as (H1 & _);
          [reflexivity | reflexivity | rewrite H1]
    end.
    cbn [shown session calls snd]. split; [reflexivity|].
    unfold defaults. generalize (SApi api). try generalize (SDict (listing str_exc (transport rq))).
    intros. reflexivity.
Qed.


(** ** The API Testing page *)



(** ** The session the script maintains *)













(** ** What ends with an exception *)




(** ** The key [page] *)

Lemma init_session_state_blind : blind init_session_state.
Proof. unfold init_session_state. blind_tac. Qed.

Lemma sidebar_config_blind i : blind (sidebar_config transport str_exc str_other i).
Proof. unfold sidebar_config. blind_tac. Qed.

Lemma product_details_blind p : blind (product_details str_other p).
Proof. unfold product_details. blind_tac. Qed.

Lemma line_items_blind items : blind (line_items str_other items).
Proof. induction items as [|x items IH]; cbn [line_items]; blind_tac. exact IH. Qed.

Lemma subscription_details_blind p : blind (subscription_details str_other p).
Proof. unfold subscription_details. blind_tac. apply line_items_blind. Qed.

Lemma show_products_blind i : blind (show_products str_other isoformat_date i).
Proof. unfold show_products. blind_tac. apply product_details_blind. Qed.

Lemma show_subscriptions_blind i : blind (show_subscriptions str_other isoformat_date i).
Proof. unfold show_subscriptions. blind_tac. apply subscription_details_blind. Qed.

Lemma display_products_blind i :
  blind (display_products transport str_exc str_other isoformat_date i).
Proof. unfold display_products. blind_tac; apply show_products_blind. Qed.

Lemma display_subscriptions_blind i :
  blind (display_subscriptions transport str_exc str_other isoformat_date i).
Proof. unfold display_subscriptions. blind_tac; apply show_subscriptions_blind. Qed.

Lemma display_api_testing_blind i :
  blind (display_api_testing transport str_exc str_other i).
Proof. unfold display_api_testing. blind_tac. Qed.

Lemma display_dashboard_blind i : blind (display_dashboard transport str_exc i).
Proof. unfold display_dashboard. blind_tac. Qed.

(** X21. Nothing reads what the quick actions store.  The three buttons
    of the Dashboard store the name of a page under the key [page] of
    the session and rerun the script; no function reads that key.  Two
    runs that start from sessions that differ under [page] at most end
    the same way, make the same calls and show the same screen, and
    leave sessions that differ under [page] at most: the page displayed
    is the one the sidebar selects. *)
Theorem X21_page_key_is_never_read i s s' :
  hide s = hide s' ->
  fst (main transport str_exc str_other isoformat_date i s)
  = fst (main transport str_exc str_other isoformat_date i s')
  /\ hide (snd (main transport str_exc str_other isoformat_date i s))
     = hide (snd (main transport str_exc str_other isoformat_date i s')).
Proof.
  revert s s'. change (blind (main transport str_exc str_other isoformat_date i)).
  unfold main.
  apply blind_abind; [apply init_session_state_blind | intros _].
  apply blind_abind; [apply blind_emit | intros _].
  apply blind_abind; [apply sidebar_config_blind | intros nav].
  apply blind_abind; [|intros _; blind_tac].
  destruct nav; [apply display_dashboard_blind | apply display_products_blind
                | apply display_subscriptions_blind | apply display_api_testing_blind].
Qed.

End PageProps.

(** ** The rows of the two tables *)

Section RowExtras.

Variable str_other : JSON -> string.
Variable isoformat_date : string -> option string.

(** X22. A product whose price is empty is shown as Free.  For a product
    with the fields of the table whose price is the empty text, null,
    zero or any other value that counts as false, the Price of the row
    is [Free], without a dollar sign.  The Stock of the row is the value
    of [stock_quantity] as it is, null included; it is [N/A] only when
    the product has no such key. *)
Theorem X22_product_without_price_is_free
    members id name type status price cats ns created date :
  obj_lookup members "id" = Some id ->
  obj_lookup members "name" = Some name ->
  obj_lookup members "type" = Some type ->
  obj_lookup members "status" = Some status ->
  obj_lookup members "price" = Some price ->
  truthy price = false ->
  obj_lookup members "categories" = Some (JArr cats) ->
  named cats ns ->
  obj_lookup members "date_created" = Some (JStr created) ->
  isoformat_date (replace "Z" "+00:00" created) = Some date ->
  Views.product_row str_other isoformat_date (JObj members)
  = inr {[ "ID" := id; "Name" := name; "Type" := type; "Status" := status;
           "Price" := JStr "Free";
           "Stock" := default (JStr "N/A") (obj_lookup members "stock_quantity");
           "Categories" := JStr (join ", " ns); "Date Created" := JStr date ]}.
Proof.
  intros Hid Hname Htype Hstatus Hprice Hfalse Hcats Hnamed Hcreated Hdate.
  unfold Views.product_row.
  rewrite (Props.subscript_obj _ _ _ Hid), (Props.subscript_obj _ _ _ Hname),
    (Props.subscript_obj _ _ _ Htype), (Props.subscript_obj _ _ _ Hstatus),
    (Props.subscript_obj _ _ _ Hprice), (Props.subscript_obj _ _ _ Hcats),
    (Props.subscript_obj _ _ _ Hcreated).
  cbn [res_bind]. rewrite Hfalse. cbn [res_bind iter get].
  rewrite (Props.names_named _ _ Hnamed). cbn [res_bind].
  rewrite Props.strs_map_JStr. cbn [res_bind].
  unfold Views.date_column. cbn [str_replace res_bind]. rewrite Hdate.
  destruct (obj_lookup members "stock_quantity"); reflexivity.
Qed.

Lemma subscript_missing members key :
  obj_lookup members key = None -> subscript (JObj members) key = inl (KeyError key).
Proof. intros H. unfold subscript. now rewrite H. Qed.

Lemma res_bind_raises {A B} (r : Res A) (k : A -> Res B) :
  (exists e, r = inl e) \/ (forall a, exists e, k a = inl e) ->
  exists e, res_bind r k = inl e.
Proof.
  intros [[e ->] | H]; [now exists e|].
  destruct r as [e|a]; [now exists e | apply H].
Qed.

Ltac raises :=
  repeat first
    [ progress cbn [res_bind]
    | apply res_bind_raises; left; eexists; apply subscript_missing; eassumption
    | apply res_bind_raises; right; intros ? ].

(** X23. A product without one of the fields the table reads has no
    row.  The table of products reads [id], [name], [type], [status],
    [price], [categories] and [date_created] with [p[...]]: for a product
    that lacks one of them the row is not built and an exception is
    raised instead, whatever the other fields are. *)
Theorem X23_product_row_needs_its_fields members key :
  key ∈ product_fields ->
  obj_lookup members key = None ->
  exists e, Views.product_row str_other isoformat_date (JObj members) = inl e.
Proof.
  intros Hin Hnone. unfold product_fields in Hin. unfold Views.product_row.
  repeat (apply elem_of_cons in Hin as [-> | Hin]; [raises; fail|]).
  now apply elem_of_nil in Hin.
Qed.

Lemma subscription_row_needs_fields members key :
  key ∈ subscription_fields ->
  obj_lookup members key = None ->
  exists e, Views.subscription_row str_other isoformat_date (JObj members) = inl e.
Proof.
  intros Hin Hnone. unfold subscription_fields in Hin. unfold Views.subscription_row.
  repeat (apply elem_of_cons in Hin as [-> | Hin]; [raises; fail|]).
  now apply elem_of_nil in Hin.
Qed.

Lemma subscription_row_needs_billing members billing key :
  obj_lookup members "billing" = Some (JObj billing) ->
  key ∈ billing_fields ->
  obj_lookup billing key = None ->
  exists e, Views.subscription_row str_other isoformat_date (JObj members) = inl e.
Proof.
  intros Hb Hin Hnone. unfold billing_fields in Hin. unfold Views.subscription_row.
  rewrite !(Props.subscript_obj _ _ _ Hb).
  repeat (apply elem_of_cons in Hin as [-> | Hin]; [raises; fail|]).
  now apply elem_of_nil in Hin.
Qed.

(** X24. A subscription without one of the fields the table reads has
    no row.  The table of subscriptions reads [id], [status], [total],
    [billing] and [date_created] from the subscription and [first_name],
    [last_name] and [email] from its billing address: when one of them
    is missing the row is not built and an exception is raised. *)
Theorem X24_subscription_row_needs_its_fields members key :
  (key ∈ subscription_fields /\ obj_lookup members key = None)
  \/ (exists billing, obj_lookup members "billing" = Some (JObj billing)
                      /\ key ∈ billing_fields /\ obj_lookup billing key = None) ->
  exists e, Views.subscription_row str_other isoformat_date (JObj members) = inl e.
Proof.
  intros [[Hin Hnone] | (billing & Hb & Hin & Hnone)].
  - eapply subscription_row_needs_fields; eassumption.
  - eapply subscription_row_needs_billing; eassumption.
Qed.

(** X25. The Next Payment of a row is the value of [next_payment_date]
    as it is.  For a subscription with the fields of the table, the
    column holds whatever the subscription has under the key, null or an
    empty text included, and [N/A] only when the key is absent; the
    Total is the total after a dollar sign and the Customer the two names
    around a blank. *)
Theorem X25_subscription_row_next_payment
    members id status total billing first_name last_name email created date :
  obj_lookup members "id" = Some id ->
  obj_lookup members "status" = Some status ->
  obj_lookup members "total" = Some total ->
  obj_lookup members "billing" = Some (JObj billing) ->
  obj_lookup billing "first_name" = Some first_name ->
  obj_lookup billing "last_name" = Some last_name ->
  obj_lookup billing "email" = Some email ->
  obj_lookup members "date_created" = Some (JStr created) ->
  isoformat_date (replace "Z" "+00:00" created) = Some date ->
  Views.subscription_row str_other isoformat_date (JObj members)
  = inr {[ "ID" := id; "Status" := status;
           "Total" := JStr ("$" ++ Views.format str_other total);
           "Customer" := JStr (Views.format str_other first_name ++ " "
                               ++ Views.format str_other last_name);
           "Email" := email; "Start Date" := JStr date;
           "Next Payment" :=
             default (JStr "N/A") (obj_lookup members "next_payment_date") ]}.
Proof.
  intros Hid Hstatus Htotal Hbilling Hfirst Hlast Hemail Hcreated Hdate.
  unfold Views.subscription_row.
  rewrite (Props.subscript_obj _ _ _ Hid), (Props.subscript_obj _ _ _ Hstatus),
    (Props.subscript_obj _ _ _ Htotal), (Props.subscript_obj _ _ _ Hbilling).
  cbn [res_bind].
  rewrite (Props.subscript_obj _ _ _ Hfirst), (Props.subscript_obj _ _ _ Hlast),
    (Props.subscript_obj _ _ _ Hemail), (Props.subscript_obj _ _ _ Hcreated).
  cbn [res_bind]. unfold Views.date_column. cbn [str_replace res_bind]. rewrite Hdate.
  cbn [res_bind get]. destruct (obj_lookup members "next_payment_date"); reflexivity.
Qed.

End RowExtras.

(** ** The client *)

Section ClientExtras.

Variable transport : Request -> Res Response.
Variable str_exc : PyExc -> string.

(** X26. [get_subscriptions] makes exactly one call, a GET of
    [<base URL>/wp-json/wc/v3/subscriptions] that authenticates with the
    consumer key and secret and passes [per_page] and [page], and no
    status filter, as query parameters.  It never raises, and what it
    returns is made of the outcome of that call as [get_products] makes
    its result. *)
Theorem X26_get_subscriptions_request base key secret per_page page w :
  let rq := {| req_method := GET;
               req_url := (base_url (init base key secret)
                           ++ "/wp-json/wc/v3/subscriptions")%string;
               req_auth := (key, secret);
               req_params := Some (JObj [("per_page", JInt per_page);
                                         ("page", JInt page)]);
               req_json := None |} in
  get_subscriptions transport str_exc (init base key secret) per_page page w
  = (inr (listing str_exc (transport rq)),
     {| sent := sent w ++ [rq]; page := Http.page w |}).
Proof. intros rq. now rewrite Props.get_subscriptions_run. Qed.

(** X27. [test_connection] looks at the status only.  It makes one GET
    of [<base URL>/wp-json/wc/v3/system_status] without parameters, and
    for every response whose status is outside 400-599 it reports
    [Connection successful!], whatever the body and the headers are: the
    body is not decoded, so any page that answers counts as a store. *)
Theorem X27_test_connection_ignores_the_body api w r :
  transport (status_request api) = inr r ->
  status_code r < 400 \/ 600 <= status_code r ->
  test_connection transport str_exc api w
  = (inr {[ "success" := JBool true; "message" := JStr "Connection successful!" ]},
     {| sent := sent w ++ [status_request api]; page := Http.page w |}).
Proof.
  intros Hr Hst. rewrite Props.test_connection_run, Hr.
  now rewrite (Props.raise_for_status_ok r Hst).
Qed.

End ClientExtras.

(** ** The properties on concrete runs *)

Lemma X2_sidebar_missing_field_witness :
  sidebar_config (server paged_response) sample_str_exc sample_str_other incomplete (connected SNone SNone)
  = (Done NavProducts,
     {| session := session (connected SNone SNone);
        calls := [status_request shop];
        screen := sidebar_top ++ [el (st_error "Please fill in all required fields")]
                  ++ sidebar_status true |}).
Proof.
  apply (X2_sidebar_missing_field (server paged_response) sample_str_exc sample_str_other incomplete
           (connected SNone SNone) (SBool true)).
  - reflexivity.
  - right. left. reflexivity.
  - reflexivity.
Defined.

Lemma X3_sidebar_connect_witness :
  sidebar_config (server paged_response) sample_str_exc sample_str_other (visit NavProducts true false) disconnected
  = (Done NavProducts,
     {| session := <[ "api_configured" := SBool true ]>
                     (<[ "wc_api" := SApi shop ]> defaults);
        calls := [status_request shop];
        screen := sidebar_top
                  ++ [ el (st_success (cp 9989 ++ " Connected successfully!"));
                       sidebar_markdown ("**Environment:** " ++ cp 128993 ++ " Test") ]
                  ++ sidebar_status true |}).
Proof.
  apply (X3_sidebar_connect (server paged_response) sample_str_exc sample_str_other (visit NavProducts true false) disconnected);
    first [reflexivity | discriminate].
Defined.

Lemma X4_pages_need_configuration_witness :
  display_products (server paged_response) sample_str_exc sample_str_other sample_isoformat_date (visit NavProducts false true) disconnected
  = (Done tt, shown (shown disconnected products_header) (st_warning not_configured))
  /\ display_subscriptions (server paged_response) sample_str_exc sample_str_other sample_isoformat_date (visit NavProducts false true) disconnected
     = (Done tt, shown (shown disconnected subscriptions_header)
                   (st_warning not_configured))
  /\ display_api_testing (server paged_response) sample_str_exc sample_str_other (visit NavProducts false true) disconnected
     = (Done tt, shown (shown disconnected api_testing_header)
                   (st_warning not_configured))
  /\ display_dashboard (server paged_response) sample_str_exc (visit NavProducts false true) disconnected
     = (Done tt,
        shown (shown disconnected dashboard_header)
          (st_warning
             "Please configure your API credentials in the sidebar to view dashboard data.")).
Proof.
  apply (X4_pages_need_configuration (server paged_response) sample_str_exc sample_str_other sample_isoformat_date (visit NavProducts false true)
           disconnected (SBool false));
    reflexivity.
Defined.

Lemma X5_products_are_cached_witness :
  calls (snd (display_products (server paged_response) sample_str_exc sample_str_other sample_isoformat_date (visit NavProducts false false)
                (connected (SDict (success (JArr []) (JInt 1) (JInt 0))) SNone)))
  = [status_request shop]
  /\ session (snd (display_products (server paged_response) sample_str_exc sample_str_other sample_isoformat_date (visit NavProducts false false)
                     (connected (SDict (success (JArr []) (JInt 1) (JInt 0))) SNone)))
     = session (connected (SDict (success (JArr []) (JInt 1) (JInt 0))) SNone).
Proof.
  apply (X5_products_are_cached (server paged_response) sample_str_exc sample_str_other sample_isoformat_date (visit NavProducts false false)
           (connected (SDict (success (JArr []) (JInt 1) (JInt 0))) SNone)
           (SBool true) (success (JArr []) (JInt 1) (JInt 0)));
    reflexivity.
Defined.

Lemma X6_products_are_fetched_once_witness :
  calls (snd (display_products (server paged_response) sample_str_exc sample_str_other sample_isoformat_date (visit NavProducts false false)
                (connected SNone SNone)))
  = [status_request shop; products_request shop 10 1]
  /\ session (snd (display_products (server paged_response) sample_str_exc sample_str_other sample_isoformat_date (visit NavProducts false false)
                     (connected SNone SNone)))
     = <[ "products_data" := SDict (listing sample_str_exc ((server paged_response) (products_request shop 10 1))) ]>
         (session (connected SNone SNone))
  /\ (success_shape (listing sample_str_exc ((server paged_response) (products_request shop 10 1)))
      \/ failure_shape (listing sample_str_exc ((server paged_response) (products_request shop 10 1)))).
Proof.
  apply (X6_products_are_fetched_once (server paged_response) sample_str_exc sample_str_other sample_isoformat_date (visit NavProducts false false)
           (connected SNone SNone) (SBool true) shop).
  - reflexivity.
  - reflexivity.
  - right. reflexivity.
  - reflexivity.
Defined.

Lemma X7_products_failure_sticks_witness :
  let e := HTTPError 404 "Not Found" "https://shop.example/wp-json/wc/v3/products" in
  let rq := products_request shop 10 1 in
  let message := el (st_error ("Error loading products: " ++ sample_str_exc e)) in
  let s1 := loaded (shown (connected SNone SNone) products_header) "products_data" rq
              (failure sample_str_exc e) in
  display_products (server not_found_response) sample_str_exc sample_str_other sample_isoformat_date (visit NavProducts false true) (connected SNone SNone)
  = (Done tt, shown s1 message)
  /\ forall transport',
       display_products transport' sample_str_exc sample_str_other sample_isoformat_date (visit NavProducts false false)
         (shown s1 message)
       = (Done tt, shown (shown (shown s1 message) products_header) message).
Proof.
  apply (X7_products_failure_sticks (server not_found_response) sample_str_exc sample_str_other sample_isoformat_date (visit NavProducts false true)
           (visit NavProducts false false) (connected SNone SNone) (SBool true) shop
           (HTTPError 404 "Not Found" "https://shop.example/wp-json/wc/v3/products")).
  - reflexivity.
  - reflexivity.
  - left. reflexivity.
  - reflexivity.
  - right. exists not_found_response. split; [reflexivity|]. split; [simpl; lia|].
    reflexivity.
  - reflexivity.
Defined.

Lemma X8_no_products_found_witness :
  display_products (server paged_response) sample_str_exc sample_str_other sample_isoformat_date (visit NavProducts false false)
    (connected (SDict (success (JArr []) (JInt 1) (JInt 0))) SNone)
  = (Done tt,
     {| session := session (connected (SDict (success (JArr []) (JInt 1) (JInt 0))) SNone);
        calls := [status_request shop];
        screen := [products_header]
                  ++ products_metrics sample_str_other (visit NavProducts false false) (JArr [])
                       (JInt 1) (JInt 0) 0
                  ++ [st_info "No products found."] |}).
Proof.
  apply (X8_no_products_found (server paged_response) sample_str_exc sample_str_other sample_isoformat_date (visit NavProducts false false)
           (connected (SDict (success (JArr []) (JInt 1) (JInt 0))) SNone) (SBool true)
           (JInt 1) (JInt 0));
    reflexivity.
Defined.


Lemma X10_products_table_raises_witness :
  let s := connected (SDict (success (JArr [nameless_product; sample_product])
                               (JInt 1) (JInt 2))) SNone in
  display_products (server paged_response) sample_str_exc sample_str_other sample_isoformat_date (visit NavProducts false false) s
  = (Raised (KeyError "name"),
     {| session := session s; calls := calls s;
        screen := screen s ++ [products_header]
                  ++ products_metrics sample_str_other (visit NavProducts false false)
                       (JArr [nameless_product; sample_product]) (JInt 1) (JInt 2) 2 |}).
Proof.
  apply (X10_products_table_raises (server paged_response) sample_str_exc sample_str_other sample_isoformat_date (visit NavProducts false false)
           (connected (SDict (success (JArr [nameless_product; sample_product])
                                (JInt 1) (JInt 2))) SNone)
           (SBool true) [] nameless_product [sample_product] [] (KeyError "name")
           (JInt 1) (JInt 2)).
  - reflexivity.
  - reflexivity.
  - reflexivity.
  - reflexivity.
  - constructor.
  - reflexivity.
Defined.

Lemma X11_subscriptions_loading_witness :
  let s := connected (SDict (success (JArr []) (JInt 1) (JInt 0))) SNone in
  let rq := subscriptions_request shop 10 1 in
  let s' := snd (display_subscriptions (server paged_response) sample_str_exc sample_str_other sample_isoformat_date (visit NavSubscriptions false false)
                   s) in
  (calls s' = (calls s ++ [rq])%list
   /\ session s'
      = <[ "subscriptions_data" := SDict (listing sample_str_exc ((server paged_response) rq)) ]> (session s))
  /\ session s' !! "products_data" = session s !! "products_data".
Proof.
  apply (X11_subscriptions_loading (server paged_response) sample_str_exc sample_str_other sample_isoformat_date (visit NavSubscriptions false false)
           (connected (SDict (success (JArr []) (JInt 1) (JInt 0))) SNone)
           (SBool true) shop SNone);
    reflexivity.
Defined.

Lemma X12_dashboard_totals_witness :
  display_dashboard (server paged_response) sample_str_exc (visit NavDashboard false true) (connected SNone SNone)
  = (Rerun,
     {| session := <[ "page" := SStr "Products" ]> (session (connected SNone SNone));
        calls := [status_request shop; products_request shop 1 1;
                  subscriptions_request shop 1 1];
        screen := dashboard_metrics (visit NavDashboard false true)
                    (listing sample_str_exc ((server paged_response) (products_request shop 1 1)))
                    (listing sample_str_exc ((server paged_response) (subscriptions_request shop 1 1))) true |}).
Proof.
  apply (X12_dashboard_totals (server paged_response) sample_str_exc (visit NavDashboard false true)
           (connected SNone SNone) (SBool true) shop);
    reflexivity.
Defined.


Lemma X15_fresh_session_is_silent_witness :
  main (server paged_response) sample_str_exc sample_str_other sample_isoformat_date (visit NavDashboard false true) fresh
  = (Done tt,
     {| session := defaults; calls := [];
        screen := page_top ++ sidebar_top ++ sidebar_status false
                  ++ locked NavDashboard ++ page_bottom |}).
Proof.
  apply (X15_fresh_session_is_silent (server paged_response) sample_str_exc sample_str_other sample_isoformat_date (visit NavDashboard false true)).
  reflexivity.
Defined.

Lemma X16_connect_then_load_products_witness :
  calls (snd (main (server paged_response) sample_str_exc sample_str_other sample_isoformat_date (visit NavProducts true false) fresh))
  = [status_request shop; products_request shop 10 1]
  /\ session (snd (main (server paged_response) sample_str_exc sample_str_other sample_isoformat_date (visit NavProducts true false) fresh))
     = {[ "api_configured" := SBool true; "wc_api" := SApi shop;
          "products_data" := SDict (listing sample_str_exc ((server paged_response) (products_request shop 10 1)));
          "subscriptions_data" := SNone ]}.
Proof.
  apply (X16_connect_then_load_products (server paged_response) sample_str_exc sample_str_other sample_isoformat_date (visit NavProducts true false));
    first [reflexivity | discriminate].
Defined.




Lemma X21_page_key_is_never_read_witness :
  fst (main (server paged_response) sample_str_exc sample_str_other sample_isoformat_date (visit NavDashboard true false) fresh)
  = fst (main (server paged_response) sample_str_exc sample_str_other sample_isoformat_date (visit NavDashboard true false) paged)
  /\ hide (snd (main (server paged_response) sample_str_exc sample_str_other sample_isoformat_date (visit NavDashboard true false) fresh))
     = hide (snd (main (server paged_response) sample_str_exc sample_str_other sample_isoformat_date (visit NavDashboard true false) paged)).
Proof.
  apply (X21_page_key_is_never_read (server paged_response) sample_str_exc sample_str_other sample_isoformat_date (visit NavDashboard true false)
           fresh paged).
  reflexivity.
Defined.

Lemma X22_product_without_price_is_free_witness :
  Views.product_row sample_str_other sample_isoformat_date (JObj free_product)
  = inr {[ "ID" := JInt 4; "Name" := JStr "Flyer"; "Type" := JStr "simple";
           "Status" := JStr "publish"; "Price" := JStr "Free"; "Stock" := JNull;
           "Categories" := JStr EmptyString; "Date Created" := JStr "2024-03-01" ]}.
Proof.
  apply (X22_product_without_price_is_free sample_str_other sample_isoformat_date free_product (JInt 4) (JStr "Flyer")
           (JStr "simple") (JStr "publish") (JStr EmptyString) [] []
           "2024-03-01T09:30:00" "2024-03-01");
    first [reflexivity | constructor].
Defined.

Lemma X23_product_row_needs_its_fields_witness :
  exists e, Views.product_row sample_str_other sample_isoformat_date nameless_product = inl e.
Proof.
  apply (X23_product_row_needs_its_fields sample_str_other sample_isoformat_date [("id", JInt 2)] "name").
  - unfold product_fields. apply elem_of_cons. right. apply elem_of_cons. left.
    reflexivity.
  - reflexivity.
Defined.

Lemma X24_subscription_row_needs_its_fields_witness :
  exists e,
    Views.subscription_row sample_str_other sample_isoformat_date
      (JObj [("id", JInt 5); ("status", JStr "on-hold"); ("total", JStr "19.00");
             ("billing", JObj [("first_name", JStr "Ada")]);
             ("date_created", JStr "2024-02-01T08:00:00Z")])
    = inl e.
Proof.
  apply (X24_subscription_row_needs_its_fields sample_str_other sample_isoformat_date
           [("id", JInt 5); ("status", JStr "on-hold"); ("total", JStr "19.00");
            ("billing", JObj [("first_name", JStr "Ada")]);
            ("date_created", JStr "2024-02-01T08:00:00Z")] "email").
  right. exists [("first_name", JStr "Ada")]. split; [reflexivity|]. split; [|reflexivity].
  unfold billing_fields. apply elem_of_cons. right. apply elem_of_cons. right.
  apply elem_of_cons. left. reflexivity.
Defined.

Lemma X25_subscription_row_next_payment_witness :
  Views.subscription_row sample_str_other sample_isoformat_date (JObj pending_subscription)
  = inr {[ "ID" := JInt 5; "Status" := JStr "on-hold"; "Total" := JStr "$19.00";
           "Customer" := JStr "Ada Lovelace"; "Email" := JStr "ada@example.org";
           "Start Date" := JStr "2024-02-01"; "Next Payment" := JStr EmptyString ]}.
Proof.
  apply (X25_subscription_row_next_payment sample_str_other sample_isoformat_date pending_subscription
           (JInt 5) (JStr "on-hold") (JStr "19.00")
           [("first_name", JStr "Ada"); ("last_name", JStr "Lovelace");
            ("email", JStr "ada@example.org")]
           (JStr "Ada") (JStr "Lovelace") (JStr "ada@example.org")
           "2024-02-01T08:00:00Z" "2024-02-01");
    reflexivity.
Defined.

Lemma X27_test_connection_ignores_the_body_witness :
  test_connection (server html_response) sample_str_exc shop w0
  = (inr {[ "success" := JBool true; "message" := JStr "Connection successful!" ]},
     {| sent := [status_request shop]; page := [] |}).
Proof.
  apply (X27_test_connection_ignores_the_body (server html_response) sample_str_exc shop w0
           html_response).
  - reflexivity.
  - left. simpl. lia.
Defined.

End AppProps.
